(** * vcf2tsv: a shallow embedding of [src/vcf2tsv/cli.py]

    The program is modelled as it is written: Python strings as Rocq
    [string]s (ASCII), Python lists as Rocq lists with Python's slicing and
    indexing semantics written out, the two header regexes as a small
    backtracking regex matcher with Python's leftmost-first / greedy
    semantics, the line loop of [convert_vcf_to_tsv] as a state-passing
    function (and as a step relation), and the external collaborators
    (the file system, cyvcf2's [VCF] reader and the [bcftools] child
    process) as fields of an environment record. *)

From Stdlib Require Import String Ascii List ZArith Lia Bool.
Import ListNotations.
Open Scope string_scope.
Open Scope list_scope.

Infix "+++" := String.append (right associativity, at level 60).

(* ------------------------------------------------------------------ *)
(** ** Characters and Python string methods *)

Definition ch_nl : ascii := "010"%char.
Definition ch_tab : ascii := "009"%char.
Definition ch_dq : ascii := "034"%char.

Definition s_of (c : ascii) : string := String c EmptyString.
Definition nl : string := s_of ch_nl.
Definition tab : string := s_of ch_tab.
Definition dq : string := s_of ch_dq.

Definition ascii_eqb (a b : ascii) : bool :=
  if ascii_dec a b then true else false.

Definition is_digit (c : ascii) : bool :=
  let n := nat_of_ascii c in (48 <=? n)%nat && (n <=? 57)%nat.

(** [s.split(c)] for a one-character separator: always at least one piece. *)
Fixpoint split_on (c : ascii) (s : string) : list string :=
  match s with
  | EmptyString => [EmptyString]
  | String x r =>
      let rest := split_on c r in
      if ascii_eqb x c then EmptyString :: rest
      else match rest with
           | h :: t => String x h :: t
           | [] => [s_of x]
           end
  end.

(** [sep.join(l)] *)
Fixpoint join (sep : string) (l : list string) : string :=
  match l with
  | [] => EmptyString
  | [x] => x
  | x :: t => x +++ sep +++ join sep t
  end.

(** [s.strip(chars)]: drop leading and trailing characters of [chars]. *)
Definition in_chars (cs : string) (c : ascii) : bool :=
  existsb (ascii_eqb c) (list_ascii_of_string cs).

Fixpoint drop_while (p : ascii -> bool) (l : list ascii) : list ascii :=
  match l with
  | [] => []
  | c :: r => if p c then drop_while p r else l
  end.

Definition strip (cs : string) (s : string) : string :=
  let l := drop_while (in_chars cs) (list_ascii_of_string s) in
  string_of_list_ascii (rev (drop_while (in_chars cs) (rev l))).

(** [s.replace("-->", "")], left to right, non-overlapping. *)
Fixpoint remove_arrow (s : string) : string :=
  match s with
  | String "-" (String "-" (String ">" r)) => remove_arrow r
  | String c r => String c (remove_arrow r)
  | EmptyString => EmptyString
  end.

(** [s.replace(a, b)] for one-character [a] and [b]. *)
Fixpoint replace_char (a b : ascii) (s : string) : string :=
  match s with
  | EmptyString => EmptyString
  | String c r => String (if ascii_eqb c a then b else c) (replace_char a b r)
  end.

(** [re.sub(r"\[[0-9]+\]", "", s)].  The scan keeps, in [pending], the
    digits seen after an opening bracket; a closing bracket after at least
    one digit drops the whole marker, anything else gives the bracket and
    the digits back (no match can start inside them) and is rescanned. *)
Fixpoint sub_markers_from (pending : option string) (s : string) : string :=
  match s with
  | EmptyString =>
      match pending with
      | None => EmptyString
      | Some ds => String "[" ds
      end
  | String c r =>
      match pending with
      | Some ds =>
          if is_digit c then sub_markers_from (Some (ds +++ s_of c)) r
          else if ascii_eqb c "]" && negb (String.eqb ds EmptyString)
          then sub_markers_from None r
          else String "[" ds +++
               (if ascii_eqb c "[" then sub_markers_from (Some EmptyString) r
                else String c (sub_markers_from None r))
      | None =>
          if ascii_eqb c "[" then sub_markers_from (Some EmptyString) r
          else String c (sub_markers_from None r)
      end
  end.

Definition sub_markers (s : string) : string := sub_markers_from None s.

(** [s.startswith(p)] *)
Definition startswith (s p : string) : bool := String.prefix p s.

(** [c in s] for one character *)
Definition contains_char (c : ascii) (s : string) : bool :=
  existsb (ascii_eqb c) (list_ascii_of_string s).

(* ------------------------------------------------------------------ *)
(** ** Python list indexing and slicing *)

(** Normalisation of a slice bound [i] against a list of length [len]. *)
Definition py_bound (i : Z) (len : nat) : nat :=
  if (i <? 0)%Z then Z.to_nat (Z.max 0 (Z.of_nat len + i))
  else Nat.min (Z.to_nat i) len.

(** [l[:i]] and [l[i:]] *)
Definition slice_to {A} (i : Z) (l : list A) : list A :=
  firstn (py_bound i (length l)) l.
Definition slice_from {A} (i : Z) (l : list A) : list A :=
  skipn (py_bound i (length l)) l.

(** [l.index(x)] (first occurrence), [None] for the [ValueError]. *)
Fixpoint index_of (x : string) (l : list string) : option nat :=
  match l with
  | [] => None
  | y :: t => if String.eqb x y then Some 0%nat
              else option_map S (index_of x t)
  end.

Definition mem (x : string) (l : list string) : bool :=
  existsb (String.eqb x) l.

(* ------------------------------------------------------------------ *)
(** ** Schema and options *)

Inductive output_format := Wide | Long.

(** [info_fields], [format_fields] and [samples = vcf.samples]. *)
Record schema := mk_schema {
  info_fields : list string;
  format_fields : list string;
  samples : list string
}.

Definition ANN_HEADER : list string :=
  ["allele"; "effect"; "impact"; "gene_name"; "gene_id"; "feature_type";
   "feature_id"; "transcript_biotype"; "exon_intron_rank"; "nt_change";
   "aa_change"; "cDNA_position/cDNA_len"; "protein_position";
   "distance_to_feature"; "error"].

(** Lines 125-127: [ann_loc = info_fields.index("ANN") + 7] when the
    expansion is requested and ["ANN"] is an INFO field, else [None]. *)
Definition ann_loc_of (expand_ann : bool) (info : list string) : option nat :=
  if expand_ann && mem "ANN" info
  then option_map (fun i => (i + 7)%nat) (index_of "ANN" info)
  else None.

(* ------------------------------------------------------------------ *)
(** ** The body of the line loop (lines 131-183) *)

(** [parts[: ann_loc - 1] + var_effect.split("|") + parts[ann_loc + 2 :]] *)
Definition ann_splice (a : nat) (parts : list string) (var_effect : string)
  : list string :=
  slice_to (Z.of_nat a - 1) parts ++ split_on "|" var_effect
  ++ slice_from (Z.of_nat a + 2) parts.

(** [parts[: ann_loc - 1] + ANN_HEADER + parts[ann_loc + 1 :]] (header) *)
Definition ann_header_splice (a : nat) (parts : list string) : list string :=
  slice_to (Z.of_nat a - 1) parts ++ ANN_HEADER
  ++ slice_from (Z.of_nat a + 1) parts.

Definition hash_nl_space : string := "#" +++ nl +++ " ".

(** Lines 134-140: the wide header line. *)
Definition render_wide_header (ann_loc : option nat) (line : string) : string :=
  let line :=
    match ann_loc with
    | Some a => join tab (ann_header_splice a (split_on ch_tab line))
    | None => line
    end in
  replace_char ":" "_" (strip hash_nl_space (sub_markers line)).

(** [if ":" in var: var = var.split(":")[1]] *)
Definition drop_qualifier (var : string) : string :=
  if contains_char ":" var then nth 1 (split_on ":" var) EmptyString else var.

(** Line 153: [header[: -len(ff)] + ["F_" + x for x in header[-len(ff) :]]] *)
Definition prefix_format (ff : list string) (header : list string)
  : list string :=
  let m := (- Z.of_nat (length ff))%Z in
  slice_to m header ++ map (fun x => "F_" +++ x) (slice_from m header).

(** Lines 142-154: the long header line. *)
Definition render_long_header (sch : schema) (ann_loc : option nat)
  (line : string) : string :=
  let header := map drop_qualifier
                  (split_on ch_tab (strip hash_nl_space (sub_markers line))) in
  let header := match ann_loc with
                | Some a => ann_header_splice a header
                | None => header
                end in
  let header := prefix_format (format_fields sch) header in
  remove_arrow (join tab header).

(** Lines 162-166: reconstruction of a long-format row.  Returns the row
    and the new [fill_fields]. *)
Definition long_parts (sch : schema) (fill : list string) (line : string)
  : list string * list string :=
  let parts := split_on ch_tab (strip nl line) in
  if startswith (hd EmptyString parts) "-->"
  then (fill ++ slice_from (Z.of_nat (length parts) - Z.of_nat (length fill))%Z
                             parts, fill)
  else (parts, slice_to (Z.of_nat (7 + length (info_fields sch))) parts).

(** Lines 168-173: emission of a long-format row. [None] is the
    [IndexError] of [parts[ann_loc]]. *)
Definition emit_long (ann_loc : option nat) (parts : list string)
  : option (list string) :=
  match ann_loc with
  | Some a =>
      match nth_error parts a with
      | Some tok =>
          Some (map (fun ve => remove_arrow (strip nl (join tab (ann_splice a parts ve))))
                    (split_on "," tok))
      | None => None
      end
  | None => Some [remove_arrow (join tab parts)]
  end.

(** Lines 176-183: a wide-format data line. *)
Definition emit_wide (ann_loc : option nat) (line : string)
  : option (list string) :=
  match ann_loc with
  | Some a =>
      let parts := split_on ch_tab line in
      match nth_error parts a with
      | Some tok =>
          Some (map (fun ve => strip nl (join tab (ann_splice a parts ve)))
                    (split_on "," tok))
      | None => None
      end
  | None => Some [strip nl line]
  end.

Definition is_wide (f : output_format) : bool :=
  match f with Wide => true | Long => false end.
Definition is_long (f : output_format) : bool := negb (is_wide f).

(** One iteration of [for n, line in enumerate(proc.stdout)]: the printed
    lines and the new [fill_fields], or [None] when the body raises. *)
Definition step_line (sch : schema) (fmt : output_format) (print_header : bool)
  (ann_loc : option nat) (n : nat) (fill : list string) (line : string)
  : option (list string * list string) :=
  if (n =? 0)%nat && print_header && is_wide fmt then
    Some ([render_wide_header ann_loc line], fill)
  else if (n =? 0)%nat && print_header && is_long fmt then
    Some ([render_long_header sch ann_loc line], fill)
  else if (n <? length (samples sch))%nat && is_long fmt then
    Some ([], fill)
  else if (length (samples sch) <=? n)%nat && is_long fmt then
    let (parts, fill') := long_parts sch fill line in
    match emit_long ann_loc parts with
    | Some outs => Some (outs, fill')
    | None => None
    end
  else
    match emit_wide ann_loc line with
    | Some outs => Some (outs, fill)
    | None => None
    end.

(** The whole loop from line counter [n] and buffer [fill]: the printed
    lines, and whether the loop ended by an exception. *)
Fixpoint run (sch : schema) (fmt : output_format) (print_header : bool)
  (ann_loc : option nat) (n : nat) (fill : list string) (lines : list string)
  : list string * bool :=
  match lines with
  | [] => ([], false)
  | l :: ls =>
      match step_line sch fmt print_header ann_loc n fill l with
      | None => ([], true)
      | Some (outs, fill') =>
          let (rest, crashed) := run sch fmt print_header ann_loc (S n) fill' ls in
          (outs ++ rest, crashed)
      end
  end.

(** Line 129: [fill_fields = []] before the loop, which starts at [n = 0]. *)
Definition transform (sch : schema) (fmt : output_format) (print_header : bool)
  (ann_loc : option nat) (lines : list string) : list string * bool :=
  run sch fmt print_header ann_loc 0 [] lines.

(* ------------------------------------------------------------------ *)
(** ** The header regexes (lines 33-52) and [finditer] *)

Module Regex.

(** Regex syntax: one-character classes, concatenation, ordered
    alternation, greedy star and the single capture group read by the
    program ([groupdict()["id"]]); the other named groups are never read
    and are modelled as plain groups. *)
Inductive rx :=
| Chr (f : ascii -> bool)
| Eps
| Cat (r1 r2 : rx)
| Alt (r1 r2 : rx)
| Star (r : rx)
| Cap (r : rx).

Definition plus (r : rx) : rx := Cat r (Star r).
Definition opt (r : rx) : rx := Alt r Eps.
Definition chr (c : ascii) : rx := Chr (ascii_eqb c).
Fixpoint lit (s : string) : rx :=
  match s with
  | EmptyString => Eps
  | String c r => Cat (chr c) (lit r)
  end.
Fixpoint alts (l : list rx) : rx :=
  match l with
  | [] => Chr (fun _ => false)
  | [r] => r
  | r :: t => Alt r (alts t)
  end.

Definition any_but_nl : rx := Chr (fun c => negb (ascii_eqb c ch_nl)).
Definition digit : rx := Chr is_digit.

Definition result := option (list ascii * option (list ascii)).

(** Backtracking matcher in continuation-passing style, as Python's [re]:
    alternatives left first, a star tries one more iteration before its
    continuation.  A star iteration must consume input (Python stops an
    empty iteration too); [fuel] bounds the nesting of star iterations,
    each of which consumes a character, so [length input + 1] is enough. *)
Fixpoint mat (fuel : nat) (r : rx) (s : list ascii) (cap : option (list ascii))
  (k : list ascii -> option (list ascii) -> result) {struct fuel} : result :=
  (fix go (r : rx) (s : list ascii) (cap : option (list ascii))
      (k : list ascii -> option (list ascii) -> result) {struct r} : result :=
    match r with
    | Chr f => match s with
               | c :: s' => if f c then k s' cap else None
               | [] => None
               end
    | Eps => k s cap
    | Cat r1 r2 => go r1 s cap (fun s1 c1 => go r2 s1 c1 k)
    | Alt r1 r2 => match go r1 s cap k with
                   | Some x => Some x
                   | None => go r2 s cap k
                   end
    | Star r1 =>
        match fuel with
        | O => None
        | S f =>
            match go r1 s cap (fun s1 c1 =>
                    if (length s1 <? length s)%nat
                    then mat f (Star r1) s1 c1 k else None) with
            | Some x => Some x
            | None => k s cap
            end
        end
    | Cap r1 => go r1 s cap (fun s1 _ => k s1 (Some (firstn (length s - length s1) s)))
    end) r s cap k.

(** [pattern.match] at a position: the rest of the input and the capture. *)
Definition match_at (r : rx) (s : list ascii) : result :=
  mat (S (length s)) r s None (fun s' c => Some (s', c)).

(** [[m.groupdict()["id"] for m in pattern.finditer(text)]] for a pattern
    starting with [^] under [re.MULTILINE]: a match may start at the
    beginning of the text or after a newline; after a match the scan
    resumes at its end ([skip] counts the characters still inside it). *)
Fixpoint scan (r : rx) (s : list ascii) (bol : bool) (skip : nat) : list string :=
  match s with
  | [] => []
  | c :: s' =>
      match skip with
      | S k => scan r s' (ascii_eqb c ch_nl) k
      | O =>
          match (if bol then match_at r s else None) with
          | Some (rest, capture) =>
              string_of_list_ascii (match capture with Some x => x | None => [] end)
              :: scan r s' (ascii_eqb c ch_nl) (length s - length rest - 1)
          | None => scan r s' (ascii_eqb c ch_nl) 0
          end
      end
  end.

Definition finditer_ids (r : rx) (text : string) : list string :=
  scan r (list_ascii_of_string text) true 0.

(** The verbose patterns with their whitespace removed. *)
Definition number_info : rx :=
  alts [Cat (opt (chr "-")) (plus digit); chr "."; Chr (fun c => ascii_eqb c "A" || ascii_eqb c "G")].
Definition number_format : rx :=
  alts [Cat (opt (chr "-")) (plus digit); chr ".";
        Chr (fun c => ascii_eqb c "A" || ascii_eqb c "G" || ascii_eqb c "R")].

(** [^\#\#INFO=<ID=(?P<id>[^,]+),Number=(-?\d+|\.|[AG]),
    Type=(Integer|Float|Flag|Character|String),Description=Q([^Q]* )Q.*>],
    writing [Q] for the double quote (blanks are ignored in verbose mode). *)
Definition RE_INFO : rx :=
  Cat (lit "##INFO=<ID=")
  (Cat (Cap (plus (Chr (fun c => negb (ascii_eqb c ",")))))
  (Cat (lit ",Number=") (Cat number_info
  (Cat (lit ",Type=")
  (Cat (alts [lit "Integer"; lit "Float"; lit "Flag"; lit "Character"; lit "String"])
  (Cat (lit (",Description=" +++ dq))
  (Cat (Star (Chr (fun c => negb (ascii_eqb c ch_dq))))
  (Cat (chr ch_dq) (Cat (Star any_but_nl) (chr ">")))))))))).

(** [^\#\#FORMAT=<ID=(?P<id>.+),Number=(-?\d+|\.|[AGR]),Type=(.+),
    Description=Q(.* )Q.*>], writing [Q] for the double quote. *)
Definition RE_FORMAT : rx :=
  Cat (lit "##FORMAT=<ID=")
  (Cat (Cap (plus any_but_nl))
  (Cat (lit ",Number=") (Cat number_format
  (Cat (lit ",Type=") (Cat (plus any_but_nl)
  (Cat (lit (",Description=" +++ dq))
  (Cat (Star any_but_nl)
  (Cat (chr ch_dq) (Cat (Star any_but_nl) (chr ">")))))))))).

End Regex.

(** Lines 97-98. *)
Definition parse_info_fields (raw_header : string) : list string :=
  Regex.finditer_ids Regex.RE_INFO raw_header.
Definition parse_format_fields (raw_header : string) : list string :=
  Regex.finditer_ids Regex.RE_FORMAT raw_header.

(** Header text, for stating what [parse_info_fields] reads: an INFO
    declaration as the VCF header writes it, and any other header line. *)
Record info_decl := mk_info_decl {
  i_id : string; i_number : string; i_type : string;
  i_description : string; i_extra : string
}.

Definition render_info_decl (d : info_decl) : string :=
  "##INFO=<ID=" +++ i_id d +++ ",Number=" +++ i_number d +++ ",Type=" +++ i_type d
  +++ ",Description=" +++ dq +++ i_description d +++ dq +++ i_extra d +++ ">".

Record format_decl := mk_format_decl {
  f_id : string; f_number : string; f_type : string; f_description : string
}.

Definition render_format_decl (d : format_decl) : string :=
  "##FORMAT=<ID=" +++ f_id d +++ ",Number=" +++ f_number d +++ ",Type=" +++ f_type d
  +++ ",Description=" +++ dq +++ f_description d +++ dq +++ ">".

Inductive header_line :=
| Info (d : info_decl)
| Format (d : format_decl)
| Other (s : string).

Definition render_line (h : header_line) : string :=
  match h with
  | Info d => render_info_decl d
  | Format d => render_format_decl d
  | Other s => s
  end.

(** [raw_header]: every line ended by a newline. *)
Fixpoint header_text (hs : list header_line) : string :=
  match hs with
  | [] => ""
  | h :: t => render_line h +++ nl +++ header_text t
  end.

Definition declared_info_ids (hs : list header_line) : list string :=
  flat_map (fun h => match h with Info d => [i_id d] | _ => [] end) hs.
Definition declared_format_ids (hs : list header_line) : list string :=
  flat_map (fun h => match h with Format d => [f_id d] | _ => [] end) hs.

Definition all_digits (s : string) : bool :=
  negb (String.eqb s "") && forallb is_digit (list_ascii_of_string s).

Definition valid_number (s : string) : bool :=
  String.eqb s "." || String.eqb s "A" || String.eqb s "G" || all_digits s
  || match s with String c r => ascii_eqb c "-" && all_digits r | _ => false end.

Definition valid_type (s : string) : bool :=
  existsb (String.eqb s) ["Integer"; "Float"; "Flag"; "Character"; "String"].

(** Declarations of the shape the INFO pattern describes: an ID without
    a comma, a Number and Type of the pattern, a Description without a
    double quote, and nothing after it but a newline-free tail. *)
Definition wf_info (d : info_decl) : bool :=
  negb (String.eqb (i_id d) "") && negb (contains_char "," (i_id d))
  && valid_number (i_number d) && valid_type (i_type d)
  && negb (contains_char ch_dq (i_description d))
  && negb (contains_char ch_nl (i_extra d)).

(** A line without a newline that does not start with [p]. *)
Definition plain_line (p s : string) : bool :=
  negb (contains_char ch_nl s) && negb (startswith s p).

Definition wf_line (h : header_line) : bool :=
  match h with
  | Info d => wf_info d
  | Format d => plain_line "##INFO=<ID=" (render_format_decl d)
  | Other s => plain_line "##INFO=<ID=" s
  end.

(** [p] occurs in [s]. *)
Fixpoint occurs (p s : string) : bool :=
  String.prefix p s || match s with EmptyString => false | String _ r => occurs p r end.

Definition valid_format_number (s : string) : bool :=
  valid_number s || String.eqb s "R".

(** A FORMAT declaration after the comma that ends its ID, and after the
    comma that ends its Type. *)
Definition format_after_id (d : format_decl) : string :=
  "Number=" +++ f_number d +++ ",Type=" +++ f_type d
  +++ ",Description=" +++ dq +++ f_description d +++ dq +++ ">".
Definition format_after_type (d : format_decl) : string :=
  "Description=" +++ dq +++ f_description d +++ dq +++ ">".

(** FORMAT declarations read right by the greedy groups of the FORMAT
    pattern: ID and Type non-empty, no newline, a Number of the pattern,
    and after the ID's [,Number=] and the Type's [,Description=Q]
    ([Q] the double quote) no second occurrence of them in the line. *)
Definition wf_format (d : format_decl) : bool :=
  negb (String.eqb (f_id d) "") && negb (contains_char ch_nl (f_id d))
  && valid_format_number (f_number d)
  && negb (String.eqb (f_type d) "") && negb (contains_char ch_nl (f_type d))
  && negb (contains_char ch_nl (f_description d))
  && negb (occurs ",Number=" (format_after_id d))
  && negb (occurs (",Description=" +++ dq) (format_after_type d)).

Definition wf_fline (h : header_line) : bool :=
  match h with
  | Info d => plain_line "##FORMAT=<ID=" (render_info_decl d)
  | Format d => wf_format d
  | Other s => plain_line "##FORMAT=<ID=" s
  end.

(* ------------------------------------------------------------------ *)
(** ** [convert_vcf_to_tsv] (lines 73-183) *)

(** The collaborators: [os.path.isfile], cyvcf2's [VCF(path).raw_header]
    and [.samples], and the lines [bcftools] writes for a command line. *)
Record env := mk_env {
  isfile : string -> bool;
  raw_header_of : string -> string;
  samples_of : string -> list string;
  bcftools : list string -> list string
}.

(** Observable effects, in order. *)
Inductive event :=
| Stderr (msg : string)          (* [typer.echo(..., err=True)] *)
| OpenVcf (path : string)        (* [VCF(vcf_path)] *)
| Spawn (cmd : list string)      (* [Popen(cmd, ...)] *)
| Stdout (line : string).        (* [print(line)] *)

Inductive outcome := Exit (code : Z) | Raised.

(** Lines 103-118.  As in the Python source, ["\t"] and ["\n"] stand for
    the two-character escapes that bcftools expands itself. *)
Definition query_string (fmt : output_format) (sch : schema) : string :=
  match fmt with
  | Long =>
      "%CHROM\t%POS\t%ID\t%REF\t%ALT\t%QUAL\t%FILTER\t"
      +++ join "\t" (map (fun x => "%" +++ x) (info_fields sch))
      +++ "\t[-->%SAMPLE\t"
      +++ join "\t" (map (fun x => "%" +++ x) (format_fields sch))
      +++ "\n]"
  | Wide =>
      "%CHROM\t%POS\t%ID\t%REF\t%ALT\t%QUAL\t%FILTER\t"
      +++ join "\t" (map (fun x => "%INFO/" +++ x) (info_fields sch))
      +++ "[\t%SAMPLE\t"
      +++ join "\t" (map (fun x => "%" +++ x) (format_fields sch))
      +++ "]\n"
  end.

(** Line 121: [list(filter(len, [...]))]. *)
Definition bcftools_cmd (print_header : bool) (q filename : string) : list string :=
  filter (fun s => negb (String.eqb s EmptyString))
    ["bcftools"; "query"; if print_header then "--print-header" else "";
     "-f"; q; filename].

Definition convert_vcf_to_tsv (e : env) (vcf_path : string)
  (fmt : output_format) (print_header expand_ann : bool)
  : list event * outcome :=
  if negb (isfile e vcf_path) && negb (String.eqb vcf_path "-") then
    ([Stderr ("Error: " +++ vcf_path +++ " does not exist")], Exit 1)
  else
    let raw_header := raw_header_of e vcf_path in
    let sch := mk_schema (parse_info_fields raw_header)
                         (parse_format_fields raw_header)
                         (samples_of e vcf_path) in
    let cmd := bcftools_cmd print_header (query_string fmt sch) vcf_path in
    let ann_loc := ann_loc_of expand_ann (info_fields sch) in
    let (outs, crashed) := transform sch fmt print_header ann_loc (bcftools e cmd) in
    ([OpenVcf vcf_path; Spawn cmd] ++ map Stdout outs,
     if crashed then Raised else Exit 0).

(* ------------------------------------------------------------------ *)
(** ** The loop as a step relation *)

Section Exec.
Variable sch : schema.
Variable fmt : output_format.
Variable print_header : bool.
Variable ann_loc : option nat.

(** [exec n fill lines outs raised]: consuming [lines] from counter [n]
    and buffer [fill] prints [outs], and raises iff [raised]. *)
Inductive exec : nat -> list string -> list string -> list string -> bool -> Prop :=
| exec_done n fill : exec n fill [] [] false
| exec_raise n fill l ls :
    step_line sch fmt print_header ann_loc n fill l = None ->
    exec n fill (l :: ls) [] true
| exec_line n fill l ls outs fill' rest c :
    step_line sch fmt print_header ann_loc n fill l = Some (outs, fill') ->
    exec (S n) fill' ls rest c ->
    exec n fill (l :: ls) (outs ++ rest) c.

End Exec.

(* ------------------------------------------------------------------ *)
(** ** Concrete inputs used by the witnesses and counterexamples *)

Module Inputs.

Definition info_line (id number type desc : string) : string :=
  "##INFO=<ID=" +++ id +++ ",Number=" +++ number +++ ",Type=" +++ type
  +++ ",Description=" +++ dq +++ desc +++ dq +++ ">" +++ nl.
Definition format_line (id number type desc : string) : string :=
  "##FORMAT=<ID=" +++ id +++ ",Number=" +++ number +++ ",Type=" +++ type
  +++ ",Description=" +++ dq +++ desc +++ dq +++ ">" +++ nl.

(** A tab-separated engine line with its newline. *)
Definition tsv (l : list string) : string := join tab l +++ nl.

Definition fixed_cols : list string := ["chr1"; "100"; "rs1"; "A"; "T"; "30"; "PASS"].
Definition header_fixed : list string :=
  ["# [1]CHROM"; "[2]POS"; "[3]ID"; "[4]REF"; "[5]ALT"; "[6]QUAL"; "[7]FILTER"].

(** A snpEff sub-record with its 15 pipe-separated fields. *)
Definition ann_record : string :=
  join "|" ["T"; "missense_variant"; "MODERATE"; "G1"; "ENSG1"; "transcript";
            "ENST1"; "protein_coding"; "1/2"; "c.1A>T"; "p.M1L"; "1/100";
            "1/33"; ""; ""].

(** A file with INFO fields ANN and DP, no FORMAT field and no sample. *)
Definition ann_dp_header : string :=
  "##fileformat=VCFv4.2" +++ nl
  +++ info_line "ANN" "." "String" "Functional annotations"
  +++ info_line "DP" "1" "Integer" "Depth"
  +++ tsv ["#CHROM"; "POS"; "ID"; "REF"; "ALT"; "QUAL"; "FILTER"; "INFO"].

(** [bcftools query --print-header] on it, wide format: the header line
    and one record whose ANN value is one 15-field sub-record. *)
Definition ann_dp_wide_lines : list string :=
  [tsv (header_fixed ++ ["[8]ANN"; "[9]DP"]);
   tsv (fixed_cols ++ [ann_record; "10"])].

Definition ann_dp_env : env :=
  mk_env (fun p => String.eqb p "in.vcf") (fun _ => ann_dp_header)
         (fun _ => []) (fun _ => ann_dp_wide_lines).

(** Long format, samples S1 and S2, no INFO field, FORMAT GT, DP, AD:
    the header spans one line per sample, then the record's first sample
    line and the [-->] continuation line of the second sample. *)
Definition three_format_schema : schema :=
  mk_schema [] ["GT"; "DP"; "AD"] ["S1"; "S2"].
Definition three_format_lines : list string :=
  [tsv (header_fixed ++ ["[8]S1:-->SAMPLE"; "[9]S1:GT"; "[10]S1:DP"; "[11]S1:AD"]);
   tsv ["[12]S2:-->SAMPLE"; "[13]S2:GT"; "[14]S2:DP"; "[15]S2:AD"];
   tsv (fixed_cols ++ ["-->S1"; "0/1"; "12"; "5,7"]);
   tsv ["-->S2"; "1/1"; "8"; "0,8"]].

(** Long format, one sample, INFO field DP, no FORMAT field. *)
Definition no_format_schema : schema := mk_schema ["DP"] [] ["S1"].
Definition no_format_header_line : string :=
  tsv (header_fixed ++ ["[8]DP"; "[9]S1:-->SAMPLE"; ""]).

(** A header whose first INFO line lacks everything after its ID. *)
Definition broken_info_header : string :=
  "##INFO=<ID=DP>" +++ nl +++ info_line "AF" "A" "Float" "Allele Frequency".

(** A wide header line and record with INFO fields DP, ANN and AF: ANN at
    column 8 holds two 15-field sub-records. *)
Definition dp_ann_af_header : string := tsv (header_fixed ++ ["[8]DP"; "[9]ANN"; "[10]AF"]).
Definition dp_ann_af_line : string :=
  tsv (fixed_cols ++ ["10"; ann_record +++ "," +++ ann_record; "0.5"]).

(** The schema of that file in long format, with one sample S1 and FORMAT
    GT: the record's line for S1. *)
Definition dp_ann_af_schema : schema := mk_schema ["DP"; "ANN"; "AF"] ["GT"] ["S1"].
Definition dp_ann_af_long_line : string :=
  tsv (fixed_cols ++ ["10"; ann_record +++ "," +++ ann_record; "0.5"; "-->S1"; "0/1"]).
Definition dp_ann_af_long_header : string :=
  tsv (header_fixed ++ ["[8]DP"; "[9]ANN"; "[10]AF"; "[11]S1:-->SAMPLE"; "[12]S1:GT"]).

(** A header with FORMAT declarations: a signed and an [R] Number, a Type
    and a Description holding commas and equal signs. *)
Definition format_decl_header : list header_line :=
  [Other "##fileformat=VCFv4.2";
   Format (mk_format_decl "GT" "1" "String" "Genotype");
   Info (mk_info_decl "DP" "1" "Integer" "Total Depth" "");
   Format (mk_format_decl "AD" "R" "Integer" "Allelic depths, ref=first");
   Format (mk_format_decl "PL" "-1" "Integer,Type=x" "Phred-scaled, Number=G likelihoods");
   Other ("#CHROM" +++ tab +++ "POS")].

(** A header of well-formed lines: INFO declarations with a signed Number,
    a Description holding the pattern's other punctuation, and a tail of
    extra attributes, among other header lines. *)
Definition decl_header : list header_line :=
  [Other "##fileformat=VCFv4.2";
   Info (mk_info_decl "DP" "1" "Integer" "Total Depth" "");
   Other "##FORMAT=<ID=GT,Number=1,Type=String,Description=QGenotypeQ>";
   Info (mk_info_decl "END" "-1" "Flag" "End, <of> =variant|x" ",Source=caller");
   Info (mk_info_decl "ANN" "." "String" "Functional annotations: 'Allele | Effect'" "");
   Other "";
   Other ("#CHROM" +++ tab +++ "POS")].

End Inputs.

(* ------------------------------------------------------------------ *)
(** ** Auxiliary notions for the properties *)

(** A line with at most [a] tab-separated tokens: [parts[a]] raises. *)
Definition short_line (a : nat) (l : string) : bool :=
  (length (split_on ch_tab l) <=? a)%nat.

(** Tabs in a string, and lists of tokens without tabs. *)
Definition count_tab_list (l : list ascii) : nat :=
  length (filter (ascii_eqb ch_tab) l).
Definition count_tab (s : string) : nat := count_tab_list (list_ascii_of_string s).
Definition tab_free (l : list string) : Prop := Forall (fun p => count_tab p = 0%nat) l.

(** The number of trailing tokens of a continuation line that are kept:
    [len(fill_fields)] when the line is at least that long, otherwise
    [min(len(parts), len(fill_fields) - len(parts))]. *)
Definition kept_tail (lp lf : nat) : nat :=
  if (lf <=? lp)%nat then lf else Nat.min lp (lf - lp).

(** The matcher's input fails a one-character class at its head. *)
Definition fails_at (p : ascii -> bool) (s : list ascii) : Prop :=
  match s with [] => True | c :: _ => p c = false end.

(** Whether a scan is at the beginning of a line after reading [ys]. *)
Fixpoint bol_after (b : bool) (ys : list ascii) : bool :=
  match ys with [] => b | c :: t => bol_after (ascii_eqb c ch_nl) t end.

(* ------------------------------------------------------------------ *)
(** * Properties *)

(** ** Slicing and indexing facts *)

Lemma slice_to_of_nat {A} (i : nat) (l : list A) :
  slice_to (Z.of_nat i) l = firstn i l.
Proof.
  unfold slice_to, py_bound.
  replace (Z.of_nat i <? 0)%Z with false by (symmetry; apply Z.ltb_ge; lia).
  rewrite Nat2Z.id.
  destruct (Nat.le_ge_cases i (length l)) as [H | H].
  - now rewrite Nat.min_l.
  - rewrite Nat.min_r by exact H. rewrite !firstn_all2; auto.
Qed.

Lemma slice_from_of_nat {A} (i : nat) (l : list A) :
  slice_from (Z.of_nat i) l = skipn i l.
Proof.
  unfold slice_from, py_bound.
  replace (Z.of_nat i <? 0)%Z with false by (symmetry; apply Z.ltb_ge; lia).
  rewrite Nat2Z.id.
  destruct (Nat.le_ge_cases i (length l)) as [H | H].
  - now rewrite Nat.min_l.
  - rewrite Nat.min_r by exact H. rewrite !skipn_all2; auto.
Qed.

Lemma index_of_first (x : string) (l : list string) (i : nat) :
  nth_error l i = Some x ->
  (forall j, (j < i)%nat -> nth_error l j <> Some x) ->
  index_of x l = Some i.
Proof.
  revert i; induction l as [|y t IH]; intros i Hi Hbefore.
  - destruct i; discriminate.
  - destruct i as [|i]; simpl in Hi |- *.
    + inversion Hi; subst. now rewrite String.eqb_refl.
    + destruct (String.eqb x y) eqn:E.
      * apply String.eqb_eq in E; subst.
        exfalso. apply (Hbefore 0%nat); [lia | reflexivity].
      * rewrite (IH i Hi); [reflexivity|].
        intros j Hj. apply (Hbefore (S j)). lia.
Qed.

Lemma mem_of_nth (x : string) (l : list string) (i : nat) :
  nth_error l i = Some x -> mem x l = true.
Proof.
  intro H. apply nth_error_In in H. unfold mem.
  apply existsb_exists. exists x. split; [exact H | apply String.eqb_refl].
Qed.

Lemma ann_loc_of_index (info : list string) (i : nat) :
  nth_error info i = Some "ANN" ->
  (forall j, (j < i)%nat -> nth_error info j <> Some "ANN") ->
  ann_loc_of true info = Some (i + 7)%nat.
Proof.
  intros H1 H2. unfold ann_loc_of.
  rewrite (mem_of_nth _ _ _ H1). simpl.
  now rewrite (index_of_first _ _ _ H1 H2).
Qed.

Lemma ann_splice_at (i : nat) (parts : list string) (ve : string) :
  ann_splice (i + 7) parts ve
  = firstn (i + 6) parts ++ split_on "|" ve ++ skipn (i + 9) parts.
Proof.
  unfold ann_splice.
  replace (Z.of_nat (i + 7) - 1)%Z with (Z.of_nat (i + 6)) by lia.
  replace (Z.of_nat (i + 7) + 2)%Z with (Z.of_nat (i + 9)) by lia.
  now rewrite slice_to_of_nat, slice_from_of_nat.
Qed.

(** The branch a data line takes in each format. *)
Lemma step_line_wide_data sch ph ann n fill line :
  ~ (n = 0%nat /\ ph = true) ->
  step_line sch Wide ph ann n fill line
  = match emit_wide ann line with
    | Some outs => Some (outs, fill)
    | None => None
    end.
Proof.
  intro H. unfold step_line; simpl.
  rewrite !andb_false_r.
  destruct (Nat.eqb_spec n 0); destruct ph; simpl; auto.
  exfalso; auto.
Qed.

Lemma step_line_long_data sch ph ann n fill line :
  ~ (n = 0%nat /\ ph = true) ->
  (length (samples sch) <= n)%nat ->
  step_line sch Long ph ann n fill line
  = let (parts, fill') := long_parts sch fill line in
    match emit_long ann parts with
    | Some outs => Some (outs, fill')
    | None => None
    end.
Proof.
  intros H Hs. unfold step_line; simpl.
  replace ((n <? length (samples sch))%nat) with false
    by (symmetry; apply Nat.ltb_ge; exact Hs).
  replace ((length (samples sch) <=? n)%nat) with true
    by (symmetry; apply Nat.leb_le; exact Hs).
  destruct (Nat.eqb_spec n 0); destruct ph; simpl; auto.
  exfalso; auto.
Qed.

(** C1 *)
(** C1: with the expansion requested and ["ANN"] first found at index [i]
    of [infoFields], [annLocation = i + 7]; a wide data line, and a long
    data line once reconstructed, whose token at [annLocation] is [tok]
    prints one row per comma-separated sub-record [ve] of [tok]: the
    tokens before index [annLocation - 1], the pipe-split fields of [ve],
    and the tokens from index [annLocation + 2] on. *)
Theorem C1_ann_fan_out (sch : schema) (i : nat) (ph : bool) (n : nat)
  (fill : list string) (line : string) :
  nth_error (info_fields sch) i = Some "ANN" ->
  (forall j, (j < i)%nat -> nth_error (info_fields sch) j <> Some "ANN") ->
  ann_loc_of true (info_fields sch) = Some (i + 7)%nat /\
  (forall tok, ~ (n = 0%nat /\ ph = true) ->
   let parts := split_on ch_tab line in
   nth_error parts (i + 7) = Some tok ->
   exists outs,
     step_line sch Wide ph (Some (i + 7)%nat) n fill line = Some (outs, fill) /\
     outs = map (fun ve => strip nl (join tab
                  (firstn (i + 6) parts ++ split_on "|" ve ++ skipn (i + 9) parts)))
                (split_on "," tok) /\
     length outs = length (split_on "," tok)) /\
  (forall tok, ~ (n = 0%nat /\ ph = true) -> (length (samples sch) <= n)%nat ->
   let (parts, fill') := long_parts sch fill line in
   nth_error parts (i + 7) = Some tok ->
   exists outs,
     step_line sch Long ph (Some (i + 7)%nat) n fill line = Some (outs, fill') /\
     outs = map (fun ve => remove_arrow (strip nl (join tab
                  (firstn (i + 6) parts ++ split_on "|" ve ++ skipn (i + 9) parts))))
                (split_on "," tok) /\
     length outs = length (split_on "," tok)).
Proof.
  intros H1 H2. split; [now apply ann_loc_of_index|]. split.
  - intros tok Hn parts Htok.
    rewrite step_line_wide_data by exact Hn.
    unfold emit_wide. fold parts. rewrite Htok.
    eexists; split; [reflexivity|].
    split; [|apply length_map].
    apply map_ext. intro ve. now rewrite ann_splice_at.
  - intros tok Hn Hs.
    rewrite step_line_long_data by assumption.
    destruct (long_parts sch fill line) as [parts fill'].
    intro Htok. unfold emit_long. rewrite Htok.
    eexists; split; [reflexivity|].
    split; [|apply length_map].
    apply map_ext. intro ve. now rewrite ann_splice_at.
Qed.

(** Witness of C1 on [infoFields = [DP; ANN; AF]] and a wide line whose ANN
    value holds two sub-records: two rows are printed. *)
Lemma C1_ann_fan_out_witness :
  ann_loc_of true ["DP"; "ANN"; "AF"] = Some 8%nat /\
  exists outs,
    step_line (mk_schema ["DP"; "ANN"; "AF"] [] []) Wide false (Some 8%nat) 1 []
      (Inputs.tsv (Inputs.fixed_cols
                   ++ ["10"; Inputs.ann_record +++ "," +++ Inputs.ann_record; "0.5"]))
    = Some (outs, []) /\ length outs = 2%nat.
Proof.
  destruct (C1_ann_fan_out (mk_schema ["DP"; "ANN"; "AF"] [] []) 1 false 1 []
              (Inputs.tsv (Inputs.fixed_cols
                   ++ ["10"; Inputs.ann_record +++ "," +++ Inputs.ann_record; "0.5"])))
    as [Hloc [Hwide _]];
    [reflexivity | intros j Hj; destruct j; [discriminate | lia] |].
  split; [exact Hloc|].
  destruct (Hwide (Inputs.ann_record +++ "," +++ Inputs.ann_record))
    as [outs [Hstep [_ Hlen]]];
    [intros [_ Hph]; discriminate | vm_compute; reflexivity |].
  exists outs. split; [exact Hstep|]. rewrite Hlen. vm_compute. reflexivity.
Defined.

(** Number of tab-separated columns of a printed line. *)
Definition columns (s : string) : nat := length (split_on ch_tab s).

(** C2 *)
(** C2 (code_bug): on a wide run with header and ANN expansion, on a file
    with INFO fields ANN and DP whose record carries one 15-field ANN
    sub-record, the printed header line has 22 columns and the data row
    21: the header splice [parts[: ann_loc - 1] + ANN_HEADER +
    parts[ann_loc + 1 :]] drops two tokens, the data splice
    [parts[: ann_loc - 1] + ... + parts[ann_loc + 2 :]] drops three. *)
Theorem C2_header_wider_than_rows :
  exists cmd h d,
    convert_vcf_to_tsv Inputs.ann_dp_env "in.vcf" Wide true true
    = ([OpenVcf "in.vcf"; Spawn cmd; Stdout h; Stdout d], Exit 0) /\
    columns h = 22%nat /\ columns d = 21%nat.
Proof.
  do 3 eexists. split; [vm_compute; reflexivity|].
  split; vm_compute; reflexivity.
Qed.

(** C3 *)
(** C3 (code_bug): samples S1 and S2, no INFO field, FORMAT GT, DP and
    AD.  The continuation line [-->S2 1/1 8 0,8] has 4 tokens and
    [fill_fields] 7, so [parts[len(parts) - len(fill_fields):]] is
    [parts[-3:]]: the row rebuilt is the 7 leading columns followed by
    [1/1 8 0,8] only, the sample name S2 is lost, and the row has one
    column fewer than the first sample's. *)
Theorem C3_continuation_row_loses_sample :
  exists h,
    transform Inputs.three_format_schema Long true None Inputs.three_format_lines
    = ([h; join tab (Inputs.fixed_cols ++ ["S1"; "0/1"; "12"; "5,7"]);
           join tab (Inputs.fixed_cols ++ ["1/1"; "8"; "0,8"])], false) /\
    columns (join tab (Inputs.fixed_cols ++ ["1/1"; "8"; "0,8"])) = 10%nat /\
    columns (join tab (Inputs.fixed_cols ++ ["S2"; "1/1"; "8"; "0,8"])) = 11%nat.
Proof.
  eexists. split; [vm_compute; reflexivity|].
  split; vm_compute; reflexivity.
Qed.

(** C4 *)
(** C4, as amended: with the expansion active at [annLocation = i + 7], a
    data line (wide, or long once reconstructed) whose ANN token is the
    empty string prints exactly one row, in which that token and its two
    neighbours are replaced by one single empty column. *)
Theorem C4_empty_ann_one_row (sch : schema) (i : nat) (ph : bool) (n : nat)
  (fill : list string) (line : string) :
  ~ (n = 0%nat /\ ph = true) ->
  (let parts := split_on ch_tab line in
   nth_error parts (i + 7) = Some EmptyString ->
   step_line sch Wide ph (Some (i + 7)%nat) n fill line
   = Some ([strip nl (join tab (firstn (i + 6) parts ++ [EmptyString]
                                ++ skipn (i + 9) parts))], fill)) /\
  ((length (samples sch) <= n)%nat ->
   let (parts, fill') := long_parts sch fill line in
   nth_error parts (i + 7) = Some EmptyString ->
   step_line sch Long ph (Some (i + 7)%nat) n fill line
   = Some ([remove_arrow (strip nl (join tab (firstn (i + 6) parts ++ [EmptyString]
                                             ++ skipn (i + 9) parts)))], fill')).
Proof.
  intro Hn. split.
  - intros parts Htok.
    rewrite step_line_wide_data by exact Hn.
    unfold emit_wide. fold parts. rewrite Htok. simpl.
    now rewrite ann_splice_at.
  - intro Hs. rewrite step_line_long_data by assumption.
    destruct (long_parts sch fill line) as [parts fill'].
    intro Htok. unfold emit_long. rewrite Htok. simpl.
    now rewrite ann_splice_at.
Qed.

Lemma C4_empty_ann_one_row_witness :
  step_line (mk_schema ["ANN"; "DP"] [] []) Wide false (Some 7%nat) 1 []
    (Inputs.tsv (Inputs.fixed_cols ++ [""; "10"]))
  = Some ([join tab (firstn 6 Inputs.fixed_cols ++ [""])], []).
Proof.
  destruct (C4_empty_ann_one_row (mk_schema ["ANN"; "DP"] [] []) 0 false 1 []
              (Inputs.tsv (Inputs.fixed_cols ++ [""; "10"]))) as [Hw _];
    [intros [_ H]; discriminate |].
  etransitivity; [apply Hw; vm_compute; reflexivity |].
  vm_compute. reflexivity.
Defined.

(** Counterexample to C4 as stated: with INFO fields ANN and DP, a wide
    line with an empty ANN value prints one row of 7 columns, while the
    same line with one 15-field sub-record prints a row of 21 columns:
    the empty value gives one blank column, not 15. *)
Lemma C4_empty_ann_counterexample :
  exists r r',
    step_line (mk_schema ["ANN"; "DP"] [] []) Wide false (Some 7%nat) 1 []
      (Inputs.tsv (Inputs.fixed_cols ++ [""; "10"])) = Some ([r], []) /\
    step_line (mk_schema ["ANN"; "DP"] [] []) Wide false (Some 7%nat) 1 []
      (Inputs.tsv (Inputs.fixed_cols ++ [Inputs.ann_record; "10"])) = Some ([r'], []) /\
    columns r = 7%nat /\ columns r' = 21%nat.
Proof.
  do 2 eexists. split; [vm_compute; reflexivity|].
  split; [vm_compute; reflexivity|].
  split; vm_compute; reflexivity.
Qed.

(** C5 *)
(** C5 (code_bug): the negated class [[^,]+] of the ID crosses the line
    break, so the malformed line [##INFO=<ID=DP>] and the well-formed AF
    declaration after it form one match whose ID is
    [DP>\n##INFO=<ID=AF]; matched line by line, the same header gives
    [AF] only. *)
Theorem C5_info_match_spans_lines :
  parse_info_fields Inputs.broken_info_header
  = ["DP>" +++ nl +++ "##INFO=<ID=AF"] /\
  parse_info_fields ("##INFO=<ID=DP>" +++ nl) = [] /\
  parse_info_fields (Inputs.info_line "AF" "A" "Float" "Allele Frequency") = ["AF"].
Proof.
  split; [|split]; vm_compute; reflexivity.
Qed.

(** C6 *)
(** C6 (code_bug): with no FORMAT field, [header[: -0]] is empty and
    [header[-0 :]] is the whole header, so every column of the long
    header line is prefixed with [F_]. *)
Theorem C6_no_format_all_prefixed :
  transform Inputs.no_format_schema Long true None [Inputs.no_format_header_line]
  = ([join tab (map (fun x => "F_" +++ x)
        ["CHROM"; "POS"; "ID"; "REF"; "ALT"; "QUAL"; "FILTER"; "DP"; "SAMPLE"; ""])],
     false).
Proof. vm_compute. reflexivity. Qed.

(** ** Discarded leading lines in long format *)

Lemma step_line_long_skip sch ph ann n fill line :
  (n < length (samples sch))%nat -> ~ (n = 0%nat /\ ph = true) ->
  step_line sch Long ph ann n fill line = Some ([], fill).
Proof.
  intros Hs Hn. unfold step_line; simpl.
  replace ((n <? length (samples sch))%nat) with true
    by (symmetry; apply Nat.ltb_lt; exact Hs).
  destruct (Nat.eqb_spec n 0); destruct ph; simpl; auto.
  exfalso; auto.
Qed.

Lemma run_long_skip_prefix sch ann (pre rest : list string) (k : nat) :
  (k + length pre = length (samples sch))%nat ->
  run sch Long false ann k [] (pre ++ rest)
  = run sch Long false ann (length (samples sch)) [] rest.
Proof.
  revert k; induction pre as [|l pre IH]; intros k Hk; simpl in Hk |- *.
  - now replace k with (length (samples sch)) by lia.
  - rewrite step_line_long_skip by (lia || (intros [_ H]; discriminate)).
    rewrite (IH (S k)) by lia.
    destruct (run sch Long false ann (length (samples sch)) [] rest); reflexivity.
Qed.

(** C7 *)
(** C7, as amended: in long format a raw line of index [n < sampleCount]
    prints nothing and leaves [fill_fields] unchanged, unless [n = 0] and
    the header was requested (line 0 is then rendered as the header); so
    without header the first [sampleCount] lines of the stream never
    contribute: the output is that of the loop started at line
    [sampleCount] on the remaining lines. *)
Theorem C7_long_leading_lines_discarded (sch : schema) (ph : bool)
  (ann : option nat) :
  (forall n fill line, (n < length (samples sch))%nat ->
     ~ (n = 0%nat /\ ph = true) ->
     step_line sch Long ph ann n fill line = Some ([], fill)) /\
  (forall pre rest, length pre = length (samples sch) ->
     transform sch Long false ann (pre ++ rest)
     = run sch Long false ann (length (samples sch)) [] rest).
Proof.
  split.
  - intros n fill line Hs Hn. now apply step_line_long_skip.
  - intros pre rest Hlen. unfold transform.
    apply run_long_skip_prefix. lia.
Qed.

(** Witness of C7: two samples; with header, line 1 is discarded; without
    header, the two first lines are dropped before the data. *)
Lemma C7_long_leading_lines_discarded_witness :
  step_line Inputs.three_format_schema Long true None 1 [] "x" = Some ([], []) /\
  transform Inputs.three_format_schema Long false None
    (["a"; "b"] ++ [Inputs.tsv Inputs.fixed_cols])
  = run Inputs.three_format_schema Long false None 2 [] [Inputs.tsv Inputs.fixed_cols].
Proof.
  destruct (C7_long_leading_lines_discarded Inputs.three_format_schema true None)
    as [H1 _].
  destruct (C7_long_leading_lines_discarded Inputs.three_format_schema false None)
    as [_ H2].
  split.
  - apply H1; [simpl; lia | intros [H _]; discriminate].
  - apply H2. reflexivity.
Defined.

(** Counterexample to C7 as stated: with one sample and the header
    requested, line 0 (index 0 < 1) is not discarded but printed as the
    long header. *)
Lemma C7_header_line_not_discarded :
  exists h,
    step_line (mk_schema [] ["GT"] ["S1"]) Long true None 0 []
      (Inputs.tsv (Inputs.header_fixed ++ ["[8]S1:-->SAMPLE"; "[9]S1:GT"]))
    = Some ([h], []) /\ h <> EmptyString.
Proof.
  eexists. split; [vm_compute; reflexivity | discriminate].
Qed.

(** ** Missing input file *)

(** C8 *)
(** C8: when the path is not a file and not ["-"], the run writes one
    diagnostic to standard error and exits with code 1: no VCF is opened,
    no bcftools process is spawned and nothing is printed to standard
    output. *)
Theorem C8_missing_file_exits (e : env) (vcf_path : string)
  (fmt : output_format) (ph ea : bool) :
  isfile e vcf_path = false -> vcf_path <> "-" ->
  convert_vcf_to_tsv e vcf_path fmt ph ea
  = ([Stderr ("Error: " +++ vcf_path +++ " does not exist")], Exit 1) /\
  (forall l, ~ In (Stdout l) (fst (convert_vcf_to_tsv e vcf_path fmt ph ea))).
Proof.
  intros Hf Hp.
  assert (Hc : convert_vcf_to_tsv e vcf_path fmt ph ea
               = ([Stderr ("Error: " +++ vcf_path +++ " does not exist")], Exit 1)).
  { unfold convert_vcf_to_tsv. rewrite Hf.
    destruct (String.eqb_spec vcf_path "-"); [contradiction | reflexivity]. }
  split; [exact Hc|].
  intros l. rewrite Hc. simpl. intros [H | []]. discriminate.
Qed.

Lemma C8_missing_file_exits_witness :
  convert_vcf_to_tsv Inputs.ann_dp_env "nope.vcf" Long true false
  = ([Stderr "Error: nope.vcf does not exist"], Exit 1).
Proof.
  apply (C8_missing_file_exits Inputs.ann_dp_env "nope.vcf" Long true false);
    [reflexivity | discriminate].
Defined.

(** ** Expansion requested without an ANN field *)

Lemma mem_false (x : string) (l : list string) :
  ~ In x l -> mem x l = false.
Proof.
  intro H. unfold mem. apply not_true_iff_false. intro E.
  apply existsb_exists in E as [y [Hy Ey]].
  apply String.eqb_eq in Ey. subst. contradiction.
Qed.

(** C9 *)
(** C9: when ["ANN"] is not among the INFO fields parsed from the header,
    the whole run with [expand_ann = true] (its effects and its outcome)
    is the run with [expand_ann = false]. *)
Theorem C9_ann_absent_no_expansion (e : env) (vcf_path : string)
  (fmt : output_format) (ph : bool) :
  ~ In "ANN" (parse_info_fields (raw_header_of e vcf_path)) ->
  convert_vcf_to_tsv e vcf_path fmt ph true
  = convert_vcf_to_tsv e vcf_path fmt ph false.
Proof.
  intro H. unfold convert_vcf_to_tsv.
  assert (Hn : ann_loc_of true (parse_info_fields (raw_header_of e vcf_path))
               = ann_loc_of false (parse_info_fields (raw_header_of e vcf_path))).
  { unfold ann_loc_of. simpl. now rewrite (mem_false _ _ H). }
  simpl. rewrite Hn. reflexivity.
Qed.

Definition dp_env : env :=
  mk_env (fun _ => true)
         (fun _ => Inputs.info_line "DP" "1" "Integer" "Depth")
         (fun _ => [])
         (fun _ => [Inputs.tsv (Inputs.header_fixed ++ ["[8]DP"]);
                    Inputs.tsv (Inputs.fixed_cols ++ ["10"])]).

Lemma C9_ann_absent_no_expansion_witness :
  convert_vcf_to_tsv dp_env "in.vcf" Wide true true
  = convert_vcf_to_tsv dp_env "in.vcf" Wide true false.
Proof.
  apply C9_ann_absent_no_expansion. vm_compute. intros [H | []]. discriminate.
Defined.

(** ** Determinism of the loop *)

Lemma exec_run sch fmt ph ann n fill lines outs c :
  exec sch fmt ph ann n fill lines outs c ->
  run sch fmt ph ann n fill lines = (outs, c).
Proof.
  induction 1 as [n fill | n fill l ls Hs | n fill l ls outs fill' rest c Hs _ IH];
    simpl; try rewrite Hs; auto.
  now rewrite IH.
Qed.

Lemma run_exec sch fmt ph ann lines : forall n fill outs c,
  run sch fmt ph ann n fill lines = (outs, c) ->
  exec sch fmt ph ann n fill lines outs c.
Proof.
  induction lines as [|l ls IH]; intros n fill outs c H; simpl in H.
  - inversion H; subst. constructor.
  - destruct (step_line sch fmt ph ann n fill l) as [[o fill']|] eqn:Hs.
    + destruct (run sch fmt ph ann (S n) fill' ls) as [rest c'] eqn:Hr.
      inversion H; subst. eapply exec_line; eauto.
    + inversion H; subst. now apply exec_raise.
Qed.

(** C10 *)
(** C10: every execution of the line loop from its initial state
    ([n = 0], [fill_fields = []]) over the same engine lines, schema and
    options prints the same lines and ends the same way, namely those of
    [transform]. *)
Theorem C10_transform_deterministic (sch : schema) (fmt : output_format)
  (ph ea : bool) (lines outs1 outs2 : list string) (c1 c2 : bool) :
  let ann := ann_loc_of ea (info_fields sch) in
  exec sch fmt ph ann 0 [] lines outs1 c1 ->
  exec sch fmt ph ann 0 [] lines outs2 c2 ->
  outs1 = outs2 /\ c1 = c2 /\ transform sch fmt ph ann lines = (outs1, c1).
Proof.
  intros ann H1 H2.
  apply exec_run in H1. apply exec_run in H2.
  unfold transform. rewrite H1 in H2. inversion H2; subst.
  auto.
Qed.

Lemma C10_transform_deterministic_witness :
  transform Inputs.three_format_schema Long true None Inputs.three_format_lines
  = (fst (transform Inputs.three_format_schema Long true None Inputs.three_format_lines),
     false).
Proof.
  destruct (C10_transform_deterministic Inputs.three_format_schema Long true false
              Inputs.three_format_lines
              (fst (transform Inputs.three_format_schema Long true None
                      Inputs.three_format_lines))
              (fst (transform Inputs.three_format_schema Long true None
                      Inputs.three_format_lines))
              false false) as [_ [_ H]];
    [apply run_exec; vm_compute; reflexivity
    |apply run_exec; vm_compute; reflexivity
    |exact H].
Defined.

(* ------------------------------------------------------------------ *)
(** * Further properties of the loop *)

(** ** Without ANN expansion the loop never raises *)




(** ** Wide format without ANN expansion *)

Lemma run_wide_no_ann_data sch ph lines : forall n fill,
  ~ (n = 0%nat /\ ph = true) ->
  run sch Wide ph None n fill lines = (map (strip nl) lines, false).
Proof.
  induction lines as [|l ls IH]; intros n fill Hn; [reflexivity|].
  simpl. rewrite step_line_wide_data by exact Hn. simpl.
  rewrite IH by (intros [H _]; discriminate). reflexivity.
Qed.

(** X2 *)
(** X2: in wide format without ANN expansion the output is the engine's
    lines with their newlines stripped, one output line per engine line;
    with header, line 0 is rendered by the wide header renderer instead. *)
Theorem X2_wide_no_ann_output (sch : schema) (ph : bool) (lines : list string) :
  transform sch Wide ph None lines
  = (match lines with
     | [] => []
     | l :: ls => (if ph then render_wide_header None l else strip nl l)
                  :: map (strip nl) ls
     end, false).
Proof.
  unfold transform. destruct lines as [|l ls]; [reflexivity|].
  destruct ph.
  - simpl. rewrite run_wide_no_ann_data by (intros [H _]; discriminate).
    reflexivity.
  - change (l :: ls) with (map (fun x => x) [l] ++ ls).
    rewrite run_wide_no_ann_data by (intros [_ H]; discriminate). reflexivity.
Qed.

(** ** Wide format with ANN expansion: when the loop raises *)

Lemma run_wide_ann_raise sch ph a lines : forall n fill,
  ~ (n = 0%nat /\ ph = true) ->
  snd (run sch Wide ph (Some a) n fill lines) = existsb (short_line a) lines.
Proof.
  induction lines as [|l ls IH]; intros n fill Hn; [reflexivity|].
  simpl. rewrite step_line_wide_data by exact Hn. unfold emit_wide, short_line.
  destruct (nth_error (split_on ch_tab l) a) eqn:E.
  - assert (Hlt : (a < length (split_on ch_tab l))%nat)
      by (apply nth_error_Some; rewrite E; discriminate).
    replace ((length (split_on ch_tab l) <=? a)%nat) with false
      by (symmetry; apply Nat.leb_gt; exact Hlt).
    specialize (IH (S n) fill ltac:(intros [H _]; discriminate)).
    destruct (run sch Wide ph (Some a) (S n) fill ls). exact IH.
  - apply nth_error_None in E.
    replace ((length (split_on ch_tab l) <=? a)%nat) with true
      by (symmetry; apply Nat.leb_le; exact E).
    reflexivity.
Qed.

(** X3 *)
(** X3: in wide format with ANN expansion at [ann_loc = a], the loop
    raises ([IndexError] on [parts[ann_loc]]) exactly when some data line
    (every line, or every line after the header line) has at most [a]
    tab-separated tokens. *)
Theorem X3_wide_ann_raises_iff_short (sch : schema) (ph : bool) (a : nat)
  (lines : list string) :
  snd (transform sch Wide ph (Some a) lines)
  = existsb (short_line a) (if ph then tl lines else lines).
Proof.
  unfold transform. destruct ph.
  - destruct lines as [|l ls]; [reflexivity|]. simpl.
    pose proof (run_wide_ann_raise sch true a ls 1 [] ltac:(intros [H _]; discriminate)) as H.
    destruct (run sch Wide true (Some a) 1 [] ls). exact H.
  - apply run_wide_ann_raise. intros [_ H]; discriminate.
Qed.

(** ** Column counts are kept without ANN expansion *)

Lemma count_tab_list_app (l1 l2 : list ascii) :
  count_tab_list (l1 ++ l2) = (count_tab_list l1 + count_tab_list l2)%nat.
Proof. unfold count_tab_list. now rewrite filter_app, length_app. Qed.

Lemma count_tab_list_rev (l : list ascii) :
  count_tab_list (rev l) = count_tab_list l.
Proof.
  induction l as [|c l IH]; [reflexivity|]. simpl.
  rewrite count_tab_list_app, IH. unfold count_tab_list; simpl.
  destruct (ascii_eqb ch_tab c); simpl; lia.
Qed.

Lemma list_ascii_of_string_append (s1 s2 : string) :
  list_ascii_of_string (s1 +++ s2) = list_ascii_of_string s1 ++ list_ascii_of_string s2.
Proof. induction s1 as [|c s IH]; simpl; [reflexivity | now rewrite IH]. Qed.

Lemma count_tab_append (s1 s2 : string) :
  count_tab (s1 +++ s2) = (count_tab s1 + count_tab s2)%nat.
Proof. unfold count_tab. now rewrite list_ascii_of_string_append, count_tab_list_app. Qed.

Lemma count_tab_cons (c : ascii) (s : string) :
  count_tab (String c s) = ((if ascii_eqb ch_tab c then 1 else 0) + count_tab s)%nat.
Proof. unfold count_tab, count_tab_list. simpl. now destruct (ascii_eqb ch_tab c). Qed.

Lemma columns_count_tab (s : string) : columns s = S (count_tab s).
Proof.
  unfold columns. induction s as [|c r IH]; [reflexivity|].
  rewrite count_tab_cons. simpl.
  destruct (ascii_eqb c ch_tab) eqn:E.
  - unfold ascii_eqb in E |- *. destruct (ascii_dec c ch_tab); [|discriminate].
    subst. simpl. now rewrite IH.
  - replace (ascii_eqb ch_tab c) with false.
    + destruct (split_on ch_tab r) as [|h t]; simpl in *; lia.
    + unfold ascii_eqb in E |- *. destruct (ascii_dec ch_tab c); [subst|reflexivity].
      destruct (ascii_dec ch_tab ch_tab); [discriminate | contradiction].
Qed.

Lemma count_tab_replace_char (s : string) :
  count_tab (replace_char ":" "_" s) = count_tab s.
Proof.
  induction s as [|c r IH]; [reflexivity|]. simpl replace_char.
  rewrite !count_tab_cons, IH. f_equal.
  unfold ascii_eqb. destruct (ascii_dec c ":"); subst; reflexivity.
Qed.

Lemma count_tab_drop_while (p : ascii -> bool) (l : list ascii) :
  p ch_tab = false ->
  count_tab_list (drop_while p l) = count_tab_list l.
Proof.
  intro Hp. induction l as [|c l IH]; [reflexivity|]. simpl.
  destruct (p c) eqn:E; [|reflexivity].
  rewrite IH. unfold count_tab_list. simpl.
  destruct (ascii_eqb ch_tab c) eqn:Et; [|reflexivity].
  unfold ascii_eqb in Et. destruct (ascii_dec ch_tab c); [subst; congruence | discriminate].
Qed.

Lemma count_tab_strip (cs : string) (s : string) :
  in_chars cs ch_tab = false -> count_tab (strip cs s) = count_tab s.
Proof.
  intro H. unfold strip, count_tab.
  rewrite list_ascii_of_string_of_list_ascii, count_tab_list_rev,
          count_tab_drop_while, count_tab_list_rev, count_tab_drop_while by exact H.
  reflexivity.
Qed.

Lemma count_tab_digits (ds : string) (c : ascii) :
  is_digit c = true -> count_tab (ds +++ s_of c) = count_tab ds.
Proof.
  intro Hc. rewrite count_tab_append. unfold s_of. rewrite count_tab_cons.
  replace (ascii_eqb ch_tab c) with false; [change (count_tab "") with 0%nat; lia|].
  unfold ascii_eqb. destruct (ascii_dec ch_tab c); [subst; discriminate | reflexivity].
Qed.

Lemma count_tab_sub_markers_from (s : string) : forall p,
  (forall ds, p = Some ds -> count_tab ds = 0%nat) ->
  count_tab (sub_markers_from p s) = count_tab s.
Proof.
  induction s as [|c r IH]; intros p Hp.
  - destruct p as [ds|]; [|reflexivity]. simpl.
    rewrite count_tab_cons. simpl. now apply Hp.
  - assert (Hnt : forall x, ascii_eqb x "[" = true \/ ascii_eqb x "]" = true
                  \/ is_digit x = true -> ascii_eqb ch_tab x = false).
    { intros x Hx. unfold ascii_eqb in *.
      destruct (ascii_dec ch_tab x); [subst|reflexivity].
      destruct Hx as [Hx | [Hx | Hx]]; discriminate. }
    destruct p as [ds|]; simpl sub_markers_from.
    + specialize (Hp ds eq_refl).
      destruct (is_digit c) eqn:Ed.
      * rewrite IH; [| intros ds' E; inversion E; subst; now rewrite count_tab_digits].
        rewrite count_tab_cons, (Hnt c) by auto. reflexivity.
      * destruct (ascii_eqb c "]" && negb (String.eqb ds EmptyString)) eqn:Ec.
        { apply andb_true_iff in Ec as [Ec _].
          rewrite IH by discriminate. rewrite count_tab_cons, (Hnt c) by auto.
          reflexivity. }
        { rewrite count_tab_cons, count_tab_append, Hp.
          destruct (ascii_eqb c "[") eqn:Eb.
          - rewrite IH by (intros ds' E; inversion E; reflexivity).
            rewrite count_tab_cons, (Hnt c) by auto. reflexivity.
          - rewrite !count_tab_cons, IH by discriminate. reflexivity. }
    + destruct (ascii_eqb c "[") eqn:Eb.
      * rewrite IH by (intros ds' E; inversion E; reflexivity).
        rewrite count_tab_cons, (Hnt c) by auto. reflexivity.
      * rewrite !count_tab_cons, IH by discriminate. reflexivity.
Qed.

Lemma columns_wide_header_no_ann (line : string) :
  columns (render_wide_header None line) = columns line.
Proof.
  rewrite !columns_count_tab. f_equal. unfold render_wide_header.
  rewrite count_tab_replace_char, count_tab_strip by reflexivity.
  unfold sub_markers. apply count_tab_sub_markers_from. discriminate.
Qed.

Lemma columns_strip_nl (line : string) : columns (strip nl line) = columns line.
Proof. rewrite !columns_count_tab, count_tab_strip by reflexivity. reflexivity. Qed.

(** X4 *)
(** X4: in wide format without ANN expansion, if the engine's lines
    (header line included) all have [c] tab-separated columns, every
    printed line has [c] columns: removing the [[n]] markers, stripping
    [#], newlines and blanks and replacing [:] by [_] keep the tabs. *)
Theorem X4_wide_no_ann_columns_kept (sch : schema) (ph : bool)
  (lines : list string) (c : nat) :
  Forall (fun l => columns l = c) lines ->
  Forall (fun o => columns o = c) (fst (transform sch Wide ph None lines)).
Proof.
  intro H. rewrite X2_wide_no_ann_output. simpl.
  destruct H as [|l ls Hl Hls]; [constructor|].
  constructor.
  - destruct ph; [rewrite columns_wide_header_no_ann | rewrite columns_strip_nl]; exact Hl.
  - apply Forall_map. eapply Forall_impl; [|exact Hls].
    intros x Hx. simpl. now rewrite columns_strip_nl.
Qed.

Lemma X4_wide_no_ann_columns_kept_witness :
  Forall (fun o => columns o = 9%nat)
    (fst (transform (mk_schema ["ANN"; "DP"] [] []) Wide true None
            Inputs.ann_dp_wide_lines)).
Proof.
  apply X4_wide_no_ann_columns_kept. vm_compute.
  repeat constructor.
Defined.

(** ** Long format: fresh rows and continuation rows *)

Lemma split_on_nonempty (c : ascii) (s : string) : split_on c s <> [].
Proof.
  destruct s as [|x r]; simpl; [discriminate|].
  destruct (ascii_eqb x c); [discriminate|].
  destruct (split_on c r); discriminate.
Qed.

(** [sep.join(s.split(sep)) == s] for a one-character separator. *)
Lemma join_split (c : ascii) (s : string) : join (s_of c) (split_on c s) = s.
Proof.
  induction s as [|x r IH]; [reflexivity|]. cbn [split_on].
  pose proof (split_on_nonempty c r) as Hne.
  destruct (split_on c r) as [|h t]; [contradiction|].
  destruct (ascii_eqb x c) eqn:E.
  - unfold ascii_eqb in E. destruct (ascii_dec x c); [subst x|discriminate].
    change (join (s_of c) (EmptyString :: h :: t))
      with (EmptyString +++ s_of c +++ join (s_of c) (h :: t)).
    now rewrite IH.
  - destruct t as [|h' t'].
    + simpl in IH |- *. now rewrite IH.
    + change (join (s_of c) (String x h :: h' :: t'))
        with (String x h +++ s_of c +++ join (s_of c) (h' :: t')).
      change (join (s_of c) (h :: h' :: t'))
        with (h +++ s_of c +++ join (s_of c) (h' :: t')) in IH.
      rewrite <- IH. reflexivity.
Qed.

(** X5 *)
(** X5: in long format without ANN expansion, a data line whose first
    token does not start with [-->] (the first sample of a record) is
    printed as the line itself, newlines stripped and every [-->]
    removed, and [fill_fields] becomes its first [7 + len(info_fields)]
    tokens. *)
Theorem X5_long_fresh_row (sch : schema) (ph : bool) (n : nat)
  (fill : list string) (line : string) :
  ~ (n = 0%nat /\ ph = true) -> (length (samples sch) <= n)%nat ->
  startswith (hd EmptyString (split_on ch_tab (strip nl line))) "-->" = false ->
  step_line sch Long ph None n fill line
  = Some ([remove_arrow (strip nl line)],
          firstn (7 + length (info_fields sch)) (split_on ch_tab (strip nl line))).
Proof.
  intros Hn Hs Hf. rewrite step_line_long_data by assumption.
  unfold long_parts. rewrite Hf, slice_to_of_nat.
  unfold emit_long. cbv beta iota zeta.
  change tab with (s_of ch_tab). now rewrite join_split.
Qed.

Lemma X5_long_fresh_row_witness :
  step_line Inputs.three_format_schema Long true None 2 []
    (Inputs.tsv (Inputs.fixed_cols ++ ["-->S1"; "0/1"; "12"; "5,7"]))
  = Some ([join tab (Inputs.fixed_cols ++ ["S1"; "0/1"; "12"; "5,7"])],
          Inputs.fixed_cols).
Proof.
  rewrite X5_long_fresh_row;
    [vm_compute; reflexivity | intros [H _]; discriminate | simpl; lia
    | vm_compute; reflexivity].
Defined.

(** X6 *)
(** X6: a continuation line (first token starting with [-->]) of [L]
    tokens is rebuilt as [fill_fields] followed by its last
    [kept_tail L (len fill_fields)] tokens, and [fill_fields] is kept; the
    whole line is kept exactly when [2 L <= len(fill_fields)] or
    [L = len(fill_fields)]. *)
Theorem X6_long_continuation_row (sch : schema) (fill : list string)
  (line : string) :
  let parts := split_on ch_tab (strip nl line) in
  startswith (hd EmptyString parts) "-->" = true ->
  long_parts sch fill line
  = (fill ++ skipn (length parts - kept_tail (length parts) (length fill)) parts, fill) /\
  (kept_tail (length parts) (length fill) = length parts <->
   (2 * length parts <= length fill \/ length parts = length fill)%nat).
Proof.
  intros parts Hc. split.
  - unfold long_parts. fold parts. rewrite Hc. do 2 f_equal.
    unfold slice_from, py_bound, kept_tail.
    destruct (Nat.leb_spec (length fill) (length parts)).
    + replace (Z.of_nat (length parts) - Z.of_nat (length fill) <? 0)%Z with false
        by (symmetry; apply Z.ltb_ge; lia).
      f_equal. lia.
    + replace (Z.of_nat (length parts) - Z.of_nat (length fill) <? 0)%Z with true
        by (symmetry; apply Z.ltb_lt; lia).
      f_equal. lia.
  - unfold kept_tail.
    destruct (Nat.leb_spec (length fill) (length parts)); lia.
Qed.

Lemma X6_long_continuation_row_witness :
  long_parts Inputs.three_format_schema Inputs.fixed_cols
    (Inputs.tsv ["-->S2"; "1/1"; "8"; "0,8"])
  = (Inputs.fixed_cols ++ ["1/1"; "8"; "0,8"], Inputs.fixed_cols).
Proof.
  destruct (X6_long_continuation_row Inputs.three_format_schema Inputs.fixed_cols
              (Inputs.tsv ["-->S2"; "1/1"; "8"; "0,8"])) as [H _];
    [vm_compute; reflexivity |].
  rewrite H. vm_compute. reflexivity.
Defined.

(** ** The [F_] prefix of the long header *)

(** X7 *)
(** X7: with at least one FORMAT field ([m >= 1]), the long header's
    prefixing step leaves the first [len - m] column names untouched and
    prefixes [F_] to the last [m] (to all of them when the header has at
    most [m] columns); the number of columns is kept. *)
Theorem X7_format_prefix_last_columns (ff header : list string) :
  (1 <= length ff)%nat ->
  prefix_format ff header
  = firstn (length header - length ff) header
    ++ map (fun x => "F_" +++ x) (skipn (length header - length ff) header) /\
  length (prefix_format ff header) = length header.
Proof.
  intro Hm.
  assert (E : prefix_format ff header
              = firstn (length header - length ff) header
                ++ map (fun x => "F_" +++ x) (skipn (length header - length ff) header)).
  { unfold prefix_format, slice_to, slice_from, py_bound.
    replace (- Z.of_nat (length ff) <? 0)%Z with true by (symmetry; apply Z.ltb_lt; lia).
    replace (Z.to_nat (Z.max 0 (Z.of_nat (length header) + - Z.of_nat (length ff))))
      with (length header - length ff)%nat by lia.
    reflexivity. }
  split; [exact E|].
  rewrite E, length_app, length_map, <- length_app, firstn_skipn. reflexivity.
Qed.

Lemma X7_format_prefix_last_columns_witness :
  prefix_format ["GT"; "DP"] ["CHROM"; "SAMPLE"; "GT"; "DP"]
  = ["CHROM"; "SAMPLE"; "F_GT"; "F_DP"].
Proof.
  destruct (X7_format_prefix_last_columns ["GT"; "DP"] ["CHROM"; "SAMPLE"; "GT"; "DP"])
    as [H _]; [simpl; lia|].
  rewrite H. reflexivity.
Defined.

(** ** The bcftools invocation *)



(** ** The INFO regex on well-formed declarations *)

Module RegexFacts.
Import Regex.

Local Abbreviation la := list_ascii_of_string.

Lemma mat_chr F p s cap k :
  mat F (Chr p) s cap k = match s with
                          | c :: s' => if p c then k s' cap else None
                          | [] => None
                          end.
Proof. destruct F; reflexivity. Qed.

Lemma mat_eps F s cap k : mat F Eps s cap k = k s cap.
Proof. destruct F; reflexivity. Qed.

Lemma mat_cat F r1 r2 s cap k :
  mat F (Cat r1 r2) s cap k = mat F r1 s cap (fun s1 c1 => mat F r2 s1 c1 k).
Proof. destruct F; reflexivity. Qed.

Lemma mat_alt F r1 r2 s cap k :
  mat F (Alt r1 r2) s cap k = match mat F r1 s cap k with
                              | Some x => Some x
                              | None => mat F r2 s cap k
                              end.
Proof. destruct F; reflexivity. Qed.

Lemma mat_cap F r1 s cap k :
  mat F (Cap r1) s cap k
  = mat F r1 s cap (fun s1 _ => k s1 (Some (firstn (length s - length s1) s))).
Proof. destruct F; reflexivity. Qed.

Lemma mat_star F r1 s cap k :
  mat (S F) (Star r1) s cap k
  = match mat (S F) r1 s cap (fun s1 c1 => if (length s1 <? length s)%nat
                                           then mat F (Star r1) s1 c1 k else None) with
    | Some x => Some x
    | None => k s cap
    end.
Proof. reflexivity. Qed.

(** A literal consumes itself. *)
Lemma lit_ok F w s cap k : mat F (lit w) (la w ++ s) cap k = k s cap.
Proof.
  revert s cap k. induction w as [|c w IH]; intros s cap k; simpl lit.
  - apply mat_eps.
  - unfold chr. rewrite mat_cat, mat_chr. simpl.
    unfold ascii_eqb. destruct (ascii_dec c c); [|contradiction].
    apply IH.
Qed.

(** A literal fails on an input it does not start. *)
Lemma lit_fail F w s cap k :
  ~ (exists s', s = la w ++ s') -> mat F (lit w) s cap k = None.
Proof.
  revert s cap k. induction w as [|c w IH]; intros s cap k Hn; simpl lit.
  - exfalso. apply Hn. exists s. reflexivity.
  - unfold chr. rewrite mat_cat, mat_chr. destruct s as [|x s]; [reflexivity|].
    unfold ascii_eqb. destruct (ascii_dec c x); [subst|reflexivity].
    apply IH. intros [s' E]. apply Hn. exists s'. simpl. now rewrite E.
Qed.

(** A greedy star over a class stops at the first character outside it,
    and succeeds there if its continuation does. *)
Lemma star_all F p xs rest cap k r :
  Forall (fun c => p c = true) xs -> fails_at p rest ->
  (length xs < F)%nat -> k rest cap = Some r ->
  mat F (Star (Chr p)) (xs ++ rest) cap k = Some r.
Proof.
  revert F. induction xs as [|x xs IH]; intros F Hx Hr HF Hk;
    (destruct F as [|F]; [simpl in HF; lia|]); rewrite mat_star, mat_chr.
  - cbn [app]. destruct rest as [|c rest]; [exact Hk|]. simpl in Hr. rewrite Hr. exact Hk.
  - inversion Hx; subst. simpl. rewrite H1.
    replace ((length (xs ++ rest) <? S (length (xs ++ rest)))%nat) with true
      by (symmetry; apply Nat.ltb_lt; lia).
    rewrite IH; auto. simpl in HF. lia.
Qed.

(** ... and when its continuation fails there but succeeds one character
    earlier, it gives that character back. *)
Lemma star_back_one F p xs c rest cap k r :
  Forall (fun c => p c = true) xs -> p c = true -> fails_at p rest ->
  (length xs < F)%nat -> k rest cap = None -> k (c :: rest) cap = Some r ->
  mat F (Star (Chr p)) (xs ++ c :: rest) cap k = Some r.
Proof.
  revert F. induction xs as [|x xs IH]; intros F Hx Hc Hr HF Hk1 Hk2;
    (destruct F as [|F]; [simpl in HF; lia|]); rewrite mat_star, mat_chr.
  - simpl. rewrite Hc.
    replace ((length rest <? S (length rest))%nat) with true
      by (symmetry; apply Nat.ltb_lt; lia).
    destruct F as [|F]; [exact Hk2|].
    rewrite mat_star, mat_chr.
    destruct rest as [|d rest]; [rewrite Hk1; exact Hk2|].
    simpl in Hr. rewrite Hr, Hk1. exact Hk2.
  - inversion Hx; subst. simpl. rewrite H1.
    replace ((length (xs ++ c :: rest) <? S (length (xs ++ c :: rest)))%nat) with true
      by (symmetry; apply Nat.ltb_lt; lia).
    rewrite IH; auto. simpl in HF. lia.
Qed.

(** [(?P<id>[^,]+)]-like groups: the capture is the whole run. *)
Lemma cap_plus_ok F p ids rest cap k r :
  ids <> [] -> Forall (fun c => p c = true) ids -> fails_at p rest ->
  (length ids <= F)%nat -> k rest (Some ids) = Some r ->
  mat F (Cap (plus (Chr p))) (ids ++ rest) cap k = Some r.
Proof.
  intros Hne Hall Hr HF Hk. rewrite mat_cap. unfold plus.
  destruct ids as [|x xs]; [contradiction|]. inversion Hall; subst.
  rewrite mat_cat, mat_chr. simpl. rewrite H1.
  apply star_all; [exact H2 | exact Hr | simpl in HF; lia |].
  match goal with |- k rest (Some ?t) = _ => replace t with (x :: xs); [exact Hk|] end.
  change (x :: xs ++ rest) with ((x :: xs) ++ rest).
  rewrite firstn_app. simpl length.
  replace (match length rest with
           | 0 => S (length (xs ++ rest))
           | S l => length (xs ++ rest) - l end) with (S (length xs))
    by (rewrite length_app; destruct (length rest); lia).
  rewrite (firstn_all2 (x :: xs)) by (simpl; lia).
  replace (S (length xs) - S (length xs))%nat with O by lia.
  rewrite firstn_O, app_nil_r. reflexivity.
Qed.

Lemma plus_ok F p xs rest cap k r :
  xs <> [] -> Forall (fun c => p c = true) xs -> fails_at p rest ->
  (length xs <= F)%nat -> k rest cap = Some r ->
  mat F (plus (Chr p)) (xs ++ rest) cap k = Some r.
Proof.
  intros Hne Hall Hr HF Hk. unfold plus.
  destruct xs as [|x xs]; [contradiction|]. inversion Hall; subst.
  rewrite mat_cat, mat_chr. simpl. rewrite H1.
  apply star_all; [exact H2 | exact Hr | simpl in HF; lia | exact Hk].
Qed.

Lemma ascii_eqb_refl c : ascii_eqb c c = true.
Proof. unfold ascii_eqb. destruct (ascii_dec c c); congruence. Qed.

Lemma ascii_eqb_sym a b : ascii_eqb a b = ascii_eqb b a.
Proof.
  unfold ascii_eqb. destruct (ascii_dec a b), (ascii_dec b a); congruence.
Qed.

Lemma ascii_eqb_true a b : ascii_eqb a b = true -> a = b.
Proof. unfold ascii_eqb. destruct (ascii_dec a b); congruence. Qed.

Lemma contains_char_false c s :
  contains_char c s = false ->
  Forall (fun x => negb (ascii_eqb x c) = true) (la s).
Proof.
  unfold contains_char. intros H. apply Forall_forall. intros x Hx.
  destruct (ascii_eqb x c) eqn:E; [|reflexivity].
  exfalso. assert (existsb (ascii_eqb c) (la s) = true) as H'.
  { apply existsb_exists. exists x. split; [exact Hx|].
    now rewrite ascii_eqb_sym. }
  congruence.
Qed.

Lemma all_digits_ok s :
  all_digits s = true -> la s <> [] /\ Forall (fun c => is_digit c = true) (la s).
Proof.
  unfold all_digits. intros H. apply andb_true_iff in H as [H1 H2]. split.
  - destruct s; [discriminate|]. discriminate.
  - apply Forall_forall. intros x Hx. exact (proj1 (forallb_forall _ _) H2 x Hx).
Qed.

Lemma number_info_ok F nb rest cap k r :
  valid_number nb = true -> fails_at is_digit rest ->
  (length (la nb) < F)%nat -> k rest cap = Some r ->
  mat F number_info (la nb ++ rest) cap k = Some r.
Proof.
  intros Hv Hr HF Hk. destruct F as [|F]; [lia|].
  unfold valid_number in Hv. rewrite !orb_true_iff in Hv.
  destruct Hv as [[[[H|H]|H]|H]|H].
  - apply String.eqb_eq in H. subst. simpl. rewrite Hk. reflexivity.
  - apply String.eqb_eq in H. subst. simpl. rewrite Hk. reflexivity.
  - apply String.eqb_eq in H. subst. simpl. rewrite Hk. reflexivity.
  - apply all_digits_ok in H as [Hne Hall].
    unfold number_info, alts. rewrite mat_alt, mat_cat. unfold opt.
    rewrite mat_alt. unfold chr. rewrite mat_chr.
    destruct (la nb) as [|x xs] eqn:E; [contradiction|].
    inversion Hall; subst. cbn [app].
    replace (ascii_eqb "-" x) with false.
    2:{ destruct (ascii_eqb "-" x) eqn:Ex; [|reflexivity].
        apply ascii_eqb_true in Ex. subst. discriminate. }
    rewrite mat_eps. cbv beta. unfold digit.
    change (x :: xs ++ rest) with ((x :: xs) ++ rest).
    rewrite (plus_ok (S F) is_digit (x :: xs) rest cap k r);
      solve [reflexivity | discriminate | assumption | lia].
  - destruct nb as [|c ds]; [discriminate|].
    apply andb_true_iff in H as [Hc H]. apply ascii_eqb_true in Hc. subst c.
    apply all_digits_ok in H as [Hne Hall].
    unfold number_info, alts. rewrite mat_alt, mat_cat. unfold opt.
    rewrite mat_alt. unfold chr. rewrite mat_chr. simpl la. cbn [app].
    rewrite ascii_eqb_refl. cbv beta. unfold digit.
    simpl in HF.
    rewrite (plus_ok (S F) is_digit (la ds) rest cap k r);
      solve [reflexivity | assumption | lia].
Qed.

Lemma type_ok F ty rest cap k r :
  valid_type ty = true -> k rest cap = Some r ->
  mat F (alts [lit "Integer"; lit "Float"; lit "Flag"; lit "Character"; lit "String"])
    (la ty ++ rest) cap k = Some r.
Proof.
  intros Hv Hk. destruct F as [|F];
  unfold valid_type in Hv; simpl in Hv; rewrite !orb_true_iff in Hv;
  destruct Hv as [H|[H|[H|[H|[H|H]]]]];
  try discriminate; apply String.eqb_eq in H; subst; simpl;
  rewrite Hk; reflexivity.
Qed.

(** Python's [str.startswith] against a list prefix. *)
Lemma prefix_app p s t : la s = la p ++ t -> String.prefix p s = true.
Proof.
  revert s. induction p as [|a p IH]; intros s H; [destruct s; reflexivity|].
  destruct s as [|b s]; [discriminate|]. simpl in H. injection H as Hb H.
  subst b. simpl. destruct (ascii_dec a a); [|contradiction]. now apply IH.
Qed.

(** A line that neither starts with a word [P] nor contains a newline does
    not start with [P] once the newline ending it is added, when [P] has no
    newline. *)
Lemma prefix_fail (P l rest : list ascii) :
  ~ In ch_nl P -> ~ In ch_nl l -> ~ (exists t, l = P ++ t) ->
  ~ (exists s', l ++ ch_nl :: rest = P ++ s').
Proof.
  revert l. induction P as [|p P IH]; intros l HP Hl Hn [s' E].
  - apply Hn. exists l. reflexivity.
  - destruct l as [|x l].
    + simpl in E. injection E as E _. apply HP. left. now symmetry.
    + simpl in E. injection E as -> E. apply (IH l).
      * intros H. apply HP. now right.
      * intros H. apply Hl. now right.
      * intros [t Et]. apply Hn. exists t. simpl. now rewrite Et.
      * exists s'. exact E.
Qed.

Lemma bol_after_last b ys c : bol_after b (ys ++ [c]) = ascii_eqb c ch_nl.
Proof. revert b. induction ys as [|y ys IH]; intros b; [reflexivity|]. apply IH. Qed.

Lemma scan_skip r ys rest b :
  scan r (ys ++ rest) b (length ys) = scan r rest (bol_after b ys) 0.
Proof.
  revert b. induction ys as [|y ys IH]; intros b; [reflexivity|]. apply IH.
Qed.

Lemma scan_no_bol r xs rest :
  Forall (fun c => negb (ascii_eqb c ch_nl) = true) xs ->
  scan r (xs ++ rest) false 0 = scan r rest false 0.
Proof.
  induction xs as [|x xs IH]; intros H; [reflexivity|]. inversion H; subst.
  simpl. destruct (ascii_eqb x ch_nl); [discriminate|]. now apply IH.
Qed.

Lemma scan_bol r c s' :
  scan r (c :: s') true 0 =
  match match_at r (c :: s') with
  | Some (rest, capture) =>
      string_of_list_ascii (match capture with Some x => x | None => [] end)
      :: scan r s' (ascii_eqb c ch_nl) (length (c :: s') - length rest - 1)
  | None => scan r s' (ascii_eqb c ch_nl) 0
  end.
Proof. reflexivity. Qed.

Lemma in_false c s : contains_char c s = false -> ~ In c (la s).
Proof.
  unfold contains_char. intros H Hin.
  assert (existsb (ascii_eqb c) (la s) = true) as H'
    by (apply existsb_exists; exists c; split; [exact Hin | apply ascii_eqb_refl]).
  congruence.
Qed.

(** The INFO pattern does not match at the start of any other line. *)
Lemma re_info_other s rest :
  plain_line "##INFO=<ID=" s = true ->
  scan RE_INFO (la s ++ ch_nl :: rest) true 0 = scan RE_INFO rest true 0.
Proof.
  unfold plain_line. intros H. apply andb_true_iff in H as [H1 H2].
  apply negb_true_iff in H1, H2.
  assert (Hm : match_at RE_INFO (la s ++ ch_nl :: rest) = None).
  { unfold match_at, RE_INFO. rewrite mat_cat. apply lit_fail.
    apply prefix_fail.
    - intros Hin. simpl in Hin. repeat destruct Hin as [Hin|Hin]; try discriminate Hin.
      exact Hin.
    - now apply in_false.
    - intros [t Et]. apply prefix_app in Et. unfold startswith in H2. congruence. }
  destruct (la s) as [|x xs] eqn:E.
  - cbn [app] in *. rewrite scan_bol, Hm. reflexivity.
  - cbn [app] in *. rewrite scan_bol, Hm.
    apply contains_char_false in H1. rewrite E in H1. inversion H1; subst.
    destruct (ascii_eqb x ch_nl); [discriminate|].
    rewrite scan_no_bol by exact H4. reflexivity.
Qed.

Lemma info_layout d :
  la (render_info_decl d) =
  la "##INFO=<ID=" ++ la (i_id d) ++ la ",Number=" ++ la (i_number d)
  ++ la ",Type=" ++ la (i_type d) ++ la (",Description=" +++ dq)
  ++ la (i_description d) ++ ch_dq :: la (i_extra d) ++ [">"%char].
Proof.
  unfold render_info_decl. rewrite !list_ascii_of_string_append.
  rewrite <- !app_assoc. reflexivity.
Qed.

Lemma length_la_app a b : length (la (a +++ b)) = (length (la a) + length (la b))%nat.
Proof. now rewrite list_ascii_of_string_append, length_app. Qed.

(** A well-formed declaration followed by a newline is one match of the
    INFO pattern, which captures its ID and ends at the newline. *)
Lemma re_info_decl F d rest :
  wf_info d = true -> (length (la (render_info_decl d)) < F)%nat ->
  mat F RE_INFO (la (render_info_decl d) ++ ch_nl :: rest) None
    (fun s' c => Some (s', c))
  = Some (ch_nl :: rest, Some (la (i_id d))).
Proof.
  intros Hw HF. unfold wf_info in Hw. rewrite !andb_true_iff in Hw.
  destruct Hw as [[[[[Hid Hcomma] Hnum] Hty] Hdesc] Hext].
  apply negb_true_iff in Hid, Hcomma, Hdesc, Hext.
  assert (HL := f_equal (@length ascii) (info_layout d)).
  rewrite info_layout, <- !app_assoc. cbn [app]. rewrite <- !app_assoc. cbn [app].
  rewrite !length_app in HL. cbn [length list_ascii_of_string] in HL.
  rewrite ?length_app in HL. cbn [length] in HL.
  rewrite HL in HF. clear HL.
  unfold RE_INFO. rewrite mat_cat, lit_ok. cbv beta.
  rewrite mat_cat. apply cap_plus_ok.
  { destruct (i_id d); [discriminate | discriminate]. }
  { apply contains_char_false. exact Hcomma. }
  { reflexivity. }
  { lia. }
  cbv beta. rewrite mat_cat, lit_ok. cbv beta.
  rewrite mat_cat. apply number_info_ok; [exact Hnum | reflexivity | lia |].
  cbv beta. rewrite mat_cat, lit_ok. cbv beta.
  rewrite mat_cat. apply type_ok; [exact Hty|].
  cbv beta. rewrite mat_cat, lit_ok. cbv beta.
  rewrite mat_cat. apply star_all.
  { apply contains_char_false. exact Hdesc. }
  { reflexivity. }
  { lia. }
  cbv beta. rewrite mat_cat. unfold chr at 1. rewrite mat_chr, ascii_eqb_refl.
  cbv beta. rewrite mat_cat. apply star_back_one.
  { apply contains_char_false. exact Hext. }
  { reflexivity. }
  { reflexivity. }
  { lia. }
  { cbv beta. unfold chr. rewrite mat_chr. reflexivity. }
  { cbv beta. unfold chr. rewrite mat_chr. reflexivity. }
Qed.

(** ... so the scan reports that ID and resumes after the line. *)
Lemma re_info_line d rest :
  wf_info d = true ->
  scan RE_INFO (la (render_info_decl d) ++ ch_nl :: rest) true 0
  = i_id d :: scan RE_INFO rest true 0.
Proof.
  intros Hw.
  set (mid := la "#INFO=<ID=" ++ la (i_id d) ++ la ",Number=" ++ la (i_number d)
       ++ la ",Type=" ++ la (i_type d) ++ la (",Description=" +++ dq)
       ++ la (i_description d) ++ ch_dq :: la (i_extra d)).
  assert (Hl : la (render_info_decl d) = "#"%char :: mid ++ [">"%char]).
  { rewrite info_layout. unfold mid. rewrite <- !app_assoc. reflexivity. }
  assert (Hm : match_at RE_INFO (la (render_info_decl d) ++ ch_nl :: rest)
               = Some (ch_nl :: rest, Some (la (i_id d)))).
  { unfold match_at. apply re_info_decl; [exact Hw|].
    rewrite length_app. cbn [length]. lia. }
  rewrite Hl in Hm |- *. cbn [app] in Hm |- *.
  rewrite scan_bol, Hm, string_of_list_ascii_of_string. f_equal.
  replace (length ("#"%char :: (mid ++ [">"%char]) ++ ch_nl :: rest)
           - length (ch_nl :: rest) - 1)%nat
    with (length (mid ++ [">"%char]))
    by (cbn [length]; rewrite !length_app; cbn [length]; lia).
  rewrite scan_skip, bol_after_last. reflexivity.
Qed.

(** [parse_info_fields] on a header of well-formed lines. *)
Lemma parse_info_header hs :
  forallb wf_line hs = true ->
  scan RE_INFO (la (header_text hs)) true 0 = declared_info_ids hs.
Proof.
  induction hs as [|h hs IH]; intros H; [reflexivity|].
  simpl in H. apply andb_true_iff in H as [Hh Ht].
  simpl header_text. rewrite !list_ascii_of_string_append. simpl la.
  cbn [app]. destruct h as [d|d|s0]; simpl render_line.
  - rewrite re_info_line by exact Hh. simpl. f_equal. now apply IH.
  - rewrite re_info_other by exact Hh. now apply IH.
  - rewrite re_info_other by exact Hh. now apply IH.
Qed.

End RegexFacts.

(** X9 *)
(** X9: on a header whose INFO lines are all well-formed declarations (ID
    without a comma, Number and Type as in the pattern, Description without
    a double quote, newline-free tail) and whose other lines (FORMAT
    declarations included) neither contain a newline nor start with
    [##INFO=<ID=], [parse_info_fields] returns the declared INFO IDs, in
    header order. *)
Theorem X9_info_fields_declared (hs : list header_line) :
  forallb wf_line hs = true ->
  parse_info_fields (header_text hs) = declared_info_ids hs.
Proof. apply RegexFacts.parse_info_header. Qed.

Lemma X9_info_fields_declared_witness :
  forallb wf_line Inputs.decl_header = true /\
  parse_info_fields (header_text Inputs.decl_header) = ["DP"; "END"; "ANN"].
Proof.
  split; [vm_compute; reflexivity|].
  apply (X9_info_fields_declared Inputs.decl_header). vm_compute. reflexivity.
Defined.

(** ** Column counts of the wide output with ANN expansion *)

Lemma count_tab_join (c : ascii) (l : list string) :
  tab_free l ->
  count_tab (join (s_of c) l)
  = if ascii_eqb ch_tab c then (length l - 1)%nat else 0%nat.
Proof.
  induction l as [|x l IH]; intros H; [destruct (ascii_eqb ch_tab c); reflexivity|].
  inversion H; subst. destruct l as [|y l].
  - simpl. rewrite H2. destruct (ascii_eqb ch_tab c); reflexivity.
  - change (join (s_of c) (x :: y :: l)) with (x +++ s_of c +++ join (s_of c) (y :: l)).
    rewrite !count_tab_append, H2, IH by exact H3. unfold s_of. rewrite count_tab_cons.
    destruct (ascii_eqb ch_tab c); simpl; lia.
Qed.

Lemma tab_free_split (c : ascii) (s : string) :
  (ascii_eqb ch_tab c = true \/ count_tab s = 0%nat) -> tab_free (split_on c s).
Proof.
  intros Hc. unfold tab_free. induction s as [|x r IH]; [repeat constructor|].
  assert (Hr : ascii_eqb ch_tab c = true \/ count_tab r = 0%nat).
  { destruct Hc as [Hc|Hc]; [now left|right]. rewrite count_tab_cons in Hc. lia. }
  specialize (IH Hr). cbn [split_on].
  destruct (ascii_eqb x c) eqn:Ex; [constructor; [reflexivity | exact IH]|].
  assert (Hx : ascii_eqb ch_tab x = false).
  { destruct (ascii_eqb ch_tab x) eqn:Et; [|reflexivity].
    apply RegexFacts.ascii_eqb_true in Et. subst x.
    destruct Hc as [Hc|Hc]; [congruence|]. rewrite count_tab_cons in Hc.
    rewrite RegexFacts.ascii_eqb_refl in Hc. discriminate. }
  destruct (split_on c r) as [|h t] eqn:E.
  - constructor; [|constructor]. unfold s_of. rewrite count_tab_cons, Hx. reflexivity.
  - inversion IH; subst. constructor; [|exact H2].
    rewrite count_tab_cons, H1, Hx. reflexivity.
Qed.

Lemma tab_free_app (l1 l2 : list string) :
  tab_free l1 -> tab_free l2 -> tab_free (l1 ++ l2).
Proof. intros H1 H2. apply Forall_app. now split. Qed.

Lemma tab_free_firstn n (l : list string) : tab_free l -> tab_free (firstn n l).
Proof.
  unfold tab_free. rewrite !Forall_forall. intros H x Hx. apply H.
  rewrite <- (firstn_skipn n l). apply in_or_app. now left.
Qed.

Lemma tab_free_skipn n (l : list string) : tab_free l -> tab_free (skipn n l).
Proof.
  unfold tab_free. rewrite !Forall_forall. intros H x Hx. apply H.
  rewrite <- (firstn_skipn n l). apply in_or_app. now right.
Qed.

Lemma columns_join_tab (l : list string) :
  tab_free l -> l <> [] -> columns (join tab l) = length l.
Proof.
  intros H Hne. rewrite columns_count_tab. unfold tab.
  rewrite count_tab_join by exact H. rewrite RegexFacts.ascii_eqb_refl.
  destruct l; [contradiction|]. simpl. lia.
Qed.

Lemma ann_splice_nat (a : nat) (parts : list string) (ve : string) :
  (1 <= a)%nat ->
  ann_splice a parts ve = firstn (a - 1) parts ++ split_on "|" ve ++ skipn (a + 2) parts.
Proof.
  intros Ha. unfold ann_splice.
  replace (Z.of_nat a - 1)%Z with (Z.of_nat (a - 1)) by lia.
  replace (Z.of_nat a + 2)%Z with (Z.of_nat (a + 2)) by lia.
  now rewrite slice_to_of_nat, slice_from_of_nat.
Qed.

Lemma ann_header_splice_nat (a : nat) (parts : list string) :
  (1 <= a)%nat ->
  ann_header_splice a parts = firstn (a - 1) parts ++ ANN_HEADER ++ skipn (a + 1) parts.
Proof.
  intros Ha. unfold ann_header_splice.
  replace (Z.of_nat a - 1)%Z with (Z.of_nat (a - 1)) by lia.
  replace (Z.of_nat a + 1)%Z with (Z.of_nat (a + 1)) by lia.
  now rewrite slice_to_of_nat, slice_from_of_nat.
Qed.

(** X10 *)
(** X10: with ANN expansion at [ann_loc = a] (1 <= a, a + 2 <= L) on a
    wide run whose header line and data line both have L tab-separated
    columns, the header printed has L + 13 columns, and the data line
    gives one row per comma-separated sub-record, the row for a sub-record
    with k pipe-separated fields having L - 3 + k columns: for the 15
    fields of a full snpEff sub-record, the header is one column wider
    than every row. *)
Theorem X10_wide_ann_column_counts (a : nat) (hdr line : string) :
  (1 <= a)%nat -> (a + 2 <= columns hdr)%nat -> columns line = columns hdr ->
  columns (render_wide_header (Some a) hdr) = (columns hdr + 13)%nat /\
  exists rows, emit_wide (Some a) line = Some rows /\
    Forall2 (fun ve o => columns o = (columns hdr - 3 + length (split_on "|" ve))%nat)
      (split_on "," (nth a (split_on ch_tab line) "")) rows.
Proof.
  intros Ha HL Hl. split.
  - assert (Hf : tab_free (split_on ch_tab hdr))
      by (apply tab_free_split; left; apply RegexFacts.ascii_eqb_refl).
    unfold render_wide_header.
    rewrite columns_count_tab, count_tab_replace_char, count_tab_strip by reflexivity.
    unfold sub_markers. rewrite count_tab_sub_markers_from by discriminate.
    rewrite <- columns_count_tab, ann_header_splice_nat by exact Ha.
    rewrite columns_join_tab.
    + rewrite !length_app, length_firstn, length_skipn.
      change (length ANN_HEADER) with 15%nat. unfold columns in *. lia.
    + apply tab_free_app; [now apply tab_free_firstn|].
      apply tab_free_app; [unfold tab_free; repeat constructor | now apply tab_free_skipn].
    + intros E. apply (f_equal (@length string)) in E.
      rewrite !length_app in E. change (length ANN_HEADER) with 15%nat in E.
      simpl in E. lia.
  - set (Q := split_on ch_tab line).
    assert (HQ : length Q = columns hdr) by exact Hl.
    assert (Hf : tab_free Q)
      by (apply tab_free_split; left; apply RegexFacts.ascii_eqb_refl).
    assert (Htok : nth_error Q a = Some (nth a Q "")) by (apply nth_error_nth'; lia).
    assert (Hves : tab_free (split_on "," (nth a Q ""))).
    { apply tab_free_split. right. unfold tab_free in Hf. rewrite Forall_forall in Hf.
      apply Hf, nth_In. lia. }
    eexists. split.
    { unfold emit_wide. fold Q. rewrite Htok. reflexivity. }
    induction (split_on "," (nth a Q "")) as [|ve ves IH]; [constructor|].
    inversion Hves; subst. simpl map. constructor; [|now apply IH].
    rewrite columns_strip_nl, ann_splice_nat by exact Ha.
    assert (Hp : tab_free (split_on "|" ve)) by (apply tab_free_split; right; exact H1).
    rewrite columns_join_tab.
    + rewrite !length_app, length_firstn, length_skipn. lia.
    + apply tab_free_app; [now apply tab_free_firstn|].
      apply tab_free_app; [exact Hp | now apply tab_free_skipn].
    + intros E. apply (f_equal (@length string)) in E.
      rewrite !length_app in E. pose proof (split_on_nonempty "|" ve) as Hn.
      destruct (split_on "|" ve); [contradiction|]. simpl in E. lia.
Qed.

Lemma X10_wide_ann_column_counts_witness :
  ((1 <= 8)%nat /\ (8 + 2 <= columns Inputs.dp_ann_af_header)%nat
   /\ columns Inputs.dp_ann_af_line = columns Inputs.dp_ann_af_header) /\
  columns (render_wide_header (Some 8%nat) Inputs.dp_ann_af_header)
  = (columns Inputs.dp_ann_af_header + 13)%nat /\
  exists rows, emit_wide (Some 8%nat) Inputs.dp_ann_af_line = Some rows /\
    Forall2 (fun ve o => columns o
                         = (columns Inputs.dp_ann_af_header - 3
                            + length (split_on "|" ve))%nat)
      (split_on "," (nth 8 (split_on ch_tab Inputs.dp_ann_af_line) "")) rows.
Proof.
  assert (H : (1 <= 8)%nat /\ (8 + 2 <= columns Inputs.dp_ann_af_header)%nat
              /\ columns Inputs.dp_ann_af_line = columns Inputs.dp_ann_af_header)
    by (split; [lia|]; split; vm_compute; [lia | reflexivity]).
  split; [exact H|].
  destruct H as [H1 [H2 H3]].
  exact (X10_wide_ann_column_counts 8 Inputs.dp_ann_af_header Inputs.dp_ann_af_line H1 H2 H3).
Defined.

(** ** Column counts of the long output *)

Ltac ascii_cases c H :=
  destruct c as [[] [] [] [] [] [] [] []];
  solve [reflexivity | exfalso; apply H; reflexivity].

Lemma remove_arrow_other (c : ascii) (r : string) :
  c <> "-"%char -> remove_arrow (String c r) = String c (remove_arrow r).
Proof. intros H. ascii_cases c H. Qed.

Lemma remove_arrow_dash_other (c : ascii) (r : string) :
  c <> "-"%char ->
  remove_arrow (String "-" (String c r)) = String "-" (remove_arrow (String c r)).
Proof. intros H. ascii_cases c H. Qed.

Lemma remove_arrow_dash_dash_other (c : ascii) (r : string) :
  c <> ">"%char ->
  remove_arrow (String "-" (String "-" (String c r)))
  = String "-" (remove_arrow (String "-" (String c r))).
Proof. intros H. ascii_cases c H. Qed.

(** [replace("-->", "")] deletes no tab. *)
Lemma count_tab_remove_arrow (s : string) : count_tab (remove_arrow s) = count_tab s.
Proof.
  remember (String.length s) as n eqn:En. revert s En.
  induction n as [n IH] using lt_wf_ind. intros s En.
  destruct s as [|c r]; [reflexivity|].
  simpl String.length in En.
  destruct (ascii_dec c "-") as [->|Hc].
  2:{ rewrite remove_arrow_other, !count_tab_cons by exact Hc.
      f_equal. apply (IH (String.length r)); [lia | reflexivity]. }
  destruct r as [|c2 r]; [reflexivity|].
  destruct (ascii_dec c2 "-") as [->|Hc2].
  2:{ rewrite remove_arrow_dash_other by exact Hc2.
      rewrite count_tab_cons, (count_tab_cons "-"). f_equal.
      apply (IH (String.length (String c2 r))); [simpl in En |- *; lia | reflexivity]. }
  destruct r as [|c3 r]; [reflexivity|].
  destruct (ascii_dec c3 ">") as [->|Hc3].
  - change (remove_arrow (String "-" (String "-" (String ">" r)))) with (remove_arrow r).
    rewrite !count_tab_cons. simpl.
    apply (IH (String.length r)); [simpl in En; lia | reflexivity].
  - rewrite remove_arrow_dash_dash_other by exact Hc3.
    rewrite count_tab_cons, (count_tab_cons "-"). f_equal.
    apply (IH (String.length (String "-" (String c3 r)))); [simpl in En |- *; lia | reflexivity].
Qed.

Lemma columns_remove_arrow (s : string) : columns (remove_arrow s) = columns s.
Proof. now rewrite !columns_count_tab, count_tab_remove_arrow. Qed.

Lemma tab_free_nth n (l : list string) d :
  tab_free l -> count_tab d = 0%nat -> count_tab (nth n l d) = 0%nat.
Proof.
  intros H Hd. destruct (Nat.lt_ge_cases n (length l)) as [Hn|Hn].
  - unfold tab_free in H. rewrite Forall_forall in H. apply H, nth_In, Hn.
  - now rewrite nth_overflow.
Qed.

Lemma tab_free_drop_qualifier (l : list string) :
  tab_free l -> tab_free (map drop_qualifier l).
Proof.
  unfold tab_free. rewrite Forall_map. apply Forall_impl. intros x Hx.
  unfold drop_qualifier. destruct (contains_char ":" x); [|exact Hx].
  apply tab_free_nth; [|reflexivity]. apply tab_free_split. now right.
Qed.

Lemma prefix_format_length (ff header : list string) :
  length (prefix_format ff header) = length header.
Proof.
  unfold prefix_format, slice_to, slice_from.
  rewrite length_app, length_map, <- length_app, firstn_skipn. reflexivity.
Qed.

Lemma tab_free_prefix_format (ff header : list string) :
  tab_free header -> tab_free (prefix_format ff header).
Proof.
  intros H. unfold prefix_format, slice_to, slice_from.
  apply tab_free_app; [now apply tab_free_firstn|].
  unfold tab_free. rewrite Forall_map.
  pose proof (tab_free_skipn (py_bound (- Z.of_nat (length ff)) (length header)) header H)
    as H'.
  unfold tab_free in H'. eapply Forall_impl; [|exact H'].
  intros x Hx. rewrite count_tab_append, Hx. reflexivity.
Qed.

Lemma columns_header_tokens (line : string) :
  length (map drop_qualifier (split_on ch_tab (strip hash_nl_space (sub_markers line))))
  = columns line.
Proof.
  rewrite length_map. fold (columns (strip hash_nl_space (sub_markers line))).
  rewrite !columns_count_tab, count_tab_strip by reflexivity.
  unfold sub_markers. now rewrite count_tab_sub_markers_from by discriminate.
Qed.

(** X11 *)
(** X11: the long header line printed has as many tab-separated columns as
    the engine's header line without ANN expansion, and 13 more with it
    (ann_loc = a, 1 <= a, a + 1 <= that count): dropping the sample
    qualifiers, the F_ prefixes and the removal of the arrows change no
    column count, the splice replaces two columns by the 15 ANN names. *)
Theorem X11_long_header_columns (sch : schema) (a : nat) (line : string) :
  columns (render_long_header sch None line) = columns line /\
  ((1 <= a)%nat -> (a + 1 <= columns line)%nat ->
   columns (render_long_header sch (Some a) line) = (columns line + 13)%nat).
Proof.
  pose proof (columns_header_tokens line) as Hlen.
  set (T := map drop_qualifier (split_on ch_tab (strip hash_nl_space (sub_markers line)))) in *.
  assert (Hf : tab_free T).
  { apply tab_free_drop_qualifier, tab_free_split. left. apply RegexFacts.ascii_eqb_refl. }
  assert (Hpos : (1 <= columns line)%nat) by (rewrite columns_count_tab; lia).
  unfold render_long_header. fold T. split.
  - rewrite columns_remove_arrow, columns_join_tab.
    + rewrite prefix_format_length. exact Hlen.
    + now apply tab_free_prefix_format.
    + intros E. apply (f_equal (@length string)) in E.
      rewrite prefix_format_length in E. simpl in E. lia.
  - intros Ha HL. rewrite columns_remove_arrow, ann_header_splice_nat by exact Ha.
    rewrite columns_join_tab.
    + rewrite prefix_format_length, !length_app, length_firstn, length_skipn.
      change (length ANN_HEADER) with 15%nat. lia.
    + apply tab_free_prefix_format, tab_free_app; [now apply tab_free_firstn|].
      apply tab_free_app; [unfold tab_free; repeat constructor | now apply tab_free_skipn].
    + intros E. apply (f_equal (@length string)) in E.
      rewrite prefix_format_length, !length_app in E.
      change (length ANN_HEADER) with 15%nat in E. simpl in E. lia.
Qed.

Lemma X11_long_header_columns_witness :
  ((1 <= 8)%nat /\ (8 + 1 <= columns Inputs.dp_ann_af_long_header)%nat) /\
  columns (render_long_header Inputs.dp_ann_af_schema (Some 8%nat)
             Inputs.dp_ann_af_long_header)
  = (columns Inputs.dp_ann_af_long_header + 13)%nat.
Proof.
  assert (H : (1 <= 8)%nat /\ (8 + 1 <= columns Inputs.dp_ann_af_long_header)%nat)
    by (split; [lia | vm_compute; lia]).
  split; [exact H|].
  exact (proj2 (X11_long_header_columns Inputs.dp_ann_af_schema 8
                  Inputs.dp_ann_af_long_header) (proj1 H) (proj2 H)).
Defined.

(** X12 *)
(** X12: in long format with ANN expansion at [ann_loc = a] (1 <= a,
    a + 2 <= L), a data line of L columns that is not a continuation line
    gives one row per comma-separated sub-record of its token [a], the row
    for a sub-record with k pipe-separated fields having L - 3 + k columns,
    and its first [7 + len(info_fields)] tokens become [fill_fields]: with
    the 15 fields of a snpEff sub-record each row is one column narrower
    than the long header of X11. *)
Theorem X12_long_ann_row_columns (sch : schema) (ph : bool) (a n : nat)
  (fill : list string) (line : string) :
  ~ (n = 0%nat /\ ph = true) -> (length (samples sch) <= n)%nat ->
  startswith (hd EmptyString (split_on ch_tab (strip nl line))) "-->" = false ->
  (1 <= a)%nat -> (a + 2 <= columns line)%nat ->
  exists outs,
    step_line sch Long ph (Some a) n fill line
    = Some (outs, firstn (7 + length (info_fields sch)) (split_on ch_tab (strip nl line))) /\
    Forall2 (fun ve o => columns o = (columns line - 3 + length (split_on "|" ve))%nat)
      (split_on "," (nth a (split_on ch_tab (strip nl line)) "")) outs.
Proof.
  intros Hn Hs Hfr Ha HL. rewrite step_line_long_data by assumption.
  unfold long_parts. rewrite Hfr, slice_to_of_nat.
  set (P := split_on ch_tab (strip nl line)).
  assert (HP : length P = columns line) by exact (columns_strip_nl line).
  assert (Hf : tab_free P)
    by (apply tab_free_split; left; apply RegexFacts.ascii_eqb_refl).
  assert (Htok : nth_error P a = Some (nth a P "")) by (apply nth_error_nth'; lia).
  assert (Hves : tab_free (split_on "," (nth a P ""))).
  { apply tab_free_split. right. apply tab_free_nth; [exact Hf | reflexivity]. }
  unfold emit_long. rewrite Htok.
  eexists. split; [reflexivity|].
  induction (split_on "," (nth a P "")) as [|ve ves IH]; [constructor|].
  inversion Hves; subst. simpl map. constructor; [|now apply IH].
  rewrite columns_remove_arrow, columns_strip_nl, ann_splice_nat by exact Ha.
  assert (Hp : tab_free (split_on "|" ve)) by (apply tab_free_split; right; exact H1).
  rewrite columns_join_tab.
  - rewrite !length_app, length_firstn, length_skipn. lia.
  - apply tab_free_app; [now apply tab_free_firstn|].
    apply tab_free_app; [exact Hp | now apply tab_free_skipn].
  - intros E. apply (f_equal (@length string)) in E.
    rewrite !length_app in E. pose proof (split_on_nonempty "|" ve) as Hne.
    destruct (split_on "|" ve); [contradiction|]. simpl in E. lia.
Qed.

Lemma X12_long_ann_row_columns_witness :
  exists outs,
    step_line Inputs.dp_ann_af_schema Long true (Some 8%nat) 1 [] Inputs.dp_ann_af_long_line
    = Some (outs, Inputs.fixed_cols ++ ["10"; Inputs.ann_record +++ "," +++ Inputs.ann_record;
                                        "0.5"]) /\
    Forall2 (fun ve o => columns o
                         = (columns Inputs.dp_ann_af_long_line - 3
                            + length (split_on "|" ve))%nat)
      (split_on "," (nth 8 (split_on ch_tab (strip nl Inputs.dp_ann_af_long_line)) "")) outs.
Proof.
  apply (X12_long_ann_row_columns Inputs.dp_ann_af_schema true 8 1 []
           Inputs.dp_ann_af_long_line).
  - intros [H _]. discriminate.
  - simpl. lia.
  - vm_compute. reflexivity.
  - lia.
  - vm_compute. lia.
Defined.

(** ** The FORMAT regex on well-formed declarations *)

Module RegexFormat.
Import Regex RegexFacts.

Local Abbreviation la := list_ascii_of_string.

(** A greedy star over a class fails when its continuation fails at every
    position it can reach. *)
Lemma star_none F p zs rest cap k :
  Forall (fun c => p c = true) zs -> fails_at p rest ->
  (forall z1 z2, zs = z1 ++ z2 -> k (z2 ++ rest) cap = None) ->
  mat F (Star (Chr p)) (zs ++ rest) cap k = None.
Proof.
  revert F. induction zs as [|z zs IH]; intros F Hz Hr Hk;
    (destruct F as [|F]; [reflexivity|]); rewrite mat_star, mat_chr.
  - cbn [app]. destruct rest as [|c rest]; [exact (Hk [] [] eq_refl)|].
    simpl in Hr. rewrite Hr. exact (Hk [] [] eq_refl).
  - inversion Hz; subst. cbn [app]. rewrite H1.
    replace ((length (zs ++ rest) <? length (z :: zs ++ rest))%nat) with true
      by (symmetry; apply Nat.ltb_lt; simpl; lia).
    rewrite IH; [|exact H2|exact Hr|].
    + exact (Hk [] (z :: zs) eq_refl).
    + intros z1 z2 E. apply (Hk (z :: z1) z2). simpl. now rewrite E.
Qed.

(** A greedy star gives back [ys] when its continuation fails after every
    non-empty prefix of [ys] and succeeds before it. *)
Lemma star_back_to F p xs ys rest cap k r :
  Forall (fun c => p c = true) xs -> Forall (fun c => p c = true) ys ->
  fails_at p rest ->
  (forall y1 y2, ys = y1 ++ y2 -> y1 <> [] -> k (y2 ++ rest) cap = None) ->
  (length (xs ++ ys) < F)%nat -> k (ys ++ rest) cap = Some r ->
  mat F (Star (Chr p)) (xs ++ ys ++ rest) cap k = Some r.
Proof.
  revert F. induction xs as [|x xs IH]; intros F Hx Hy Hr Hk HF Hok.
  - cbn [app]. destruct ys as [|y ys].
    + apply (star_all F p [] rest); [constructor | exact Hr | simpl; lia | exact Hok].
    + destruct F as [|F]; [simpl in HF; lia|]. rewrite mat_star, mat_chr.
      inversion Hy; subst. cbn [app]. rewrite H1.
      replace ((length (ys ++ rest) <? length (y :: ys ++ rest))%nat) with true
        by (symmetry; apply Nat.ltb_lt; simpl; lia).
      rewrite star_none; [exact Hok | exact H2 | exact Hr |].
      intros z1 z2 E. apply (Hk (y :: z1) z2); [simpl; now rewrite E | discriminate].
  - destruct F as [|F]; [simpl in HF; lia|]. rewrite mat_star, mat_chr.
    inversion Hx; subst. cbn [app]. rewrite H1.
    replace ((length (xs ++ ys ++ rest) <? length (x :: xs ++ ys ++ rest))%nat) with true
      by (symmetry; apply Nat.ltb_lt; simpl; lia).
    rewrite IH; auto. simpl in HF. lia.
Qed.

Lemma occurs_suffix p s z1 z2 :
  occurs p s = false -> la s = z1 ++ z2 -> ~ (exists t, z2 = la p ++ t).
Proof.
  revert z1. induction s as [|c s IH]; intros z1 Ho E [t Et].
  - destruct z1; [|discriminate]. simpl in E. subst z2.
    simpl in Ho. destruct p; [discriminate|]. discriminate.
  - cbn [occurs] in Ho. apply orb_false_iff in Ho as [Hp Ho].
    destruct z1 as [|y z1].
    + simpl in E. subst z2. assert (String.prefix p (String c s) = true) as Hp'
        by (apply (prefix_app p (String c s) t); exact Et).
      congruence.
    + simpl in E. injection E as _ E. exact (IH z1 Ho E (ex_intro _ t Et)).
Qed.

Lemma contains_char_app c a b :
  contains_char c (a +++ b) = contains_char c a || contains_char c b.
Proof. unfold contains_char. now rewrite list_ascii_of_string_append, existsb_app. Qed.

Lemma firstn_prefix {A} (a b : list A) : firstn (length (a ++ b) - length b) (a ++ b) = a.
Proof.
  rewrite length_app, Nat.add_sub, firstn_app, Nat.sub_diag, firstn_O, app_nil_r.
  apply firstn_all.
Qed.

Lemma valid_format_number_nl s :
  valid_format_number s = true -> contains_char ch_nl s = false.
Proof.
  unfold valid_format_number, valid_number. rewrite !orb_true_iff.
  intros [[[[[H|H]|H]|H]|H]|H];
    try (apply String.eqb_eq in H; subst; reflexivity).
  - apply all_digits_ok in H as [_ H]. unfold contains_char.
    apply not_true_is_false. intros E. apply existsb_exists in E as [x [Hx Ex]].
    rewrite Forall_forall in H. specialize (H x Hx). apply ascii_eqb_true in Ex.
    subst x. discriminate.
  - destruct s as [|c r]; [discriminate|].
    apply andb_true_iff in H as [Hc H]. apply ascii_eqb_true in Hc. subst c.
    apply all_digits_ok in H as [_ H]. unfold contains_char. simpl.
    apply not_true_is_false. intros E. apply existsb_exists in E as [x [Hx Ex]].
    rewrite Forall_forall in H. specialize (H x Hx). apply ascii_eqb_true in Ex.
    subst x. discriminate.
Qed.

Lemma number_format_ok F nb rest cap k r :
  valid_format_number nb = true -> fails_at is_digit rest ->
  (length (la nb) < F)%nat -> k rest cap = Some r ->
  mat F number_format (la nb ++ rest) cap k = Some r.
Proof.
  intros Hv Hr HF Hk. destruct F as [|F]; [lia|].
  unfold valid_format_number, valid_number in Hv. rewrite !orb_true_iff in Hv.
  destruct Hv as [[[[[H|H]|H]|H]|H]|H].
  - apply String.eqb_eq in H. subst. simpl. rewrite Hk. reflexivity.
  - apply String.eqb_eq in H. subst. simpl. rewrite Hk. reflexivity.
  - apply String.eqb_eq in H. subst. simpl. rewrite Hk. reflexivity.
  - apply all_digits_ok in H as [Hne Hall].
    unfold number_format, alts. rewrite mat_alt, mat_cat. unfold opt.
    rewrite mat_alt. unfold chr. rewrite mat_chr.
    destruct (la nb) as [|x xs] eqn:E; [contradiction|].
    inversion Hall; subst. cbn [app].
    replace (ascii_eqb "-" x) with false.
    2:{ destruct (ascii_eqb "-" x) eqn:Ex; [|reflexivity].
        apply ascii_eqb_true in Ex. subst. discriminate. }
    rewrite mat_eps. cbv beta. unfold digit.
    change (x :: xs ++ rest) with ((x :: xs) ++ rest).
    rewrite (plus_ok (S F) is_digit (x :: xs) rest cap k r);
      solve [reflexivity | discriminate | assumption | lia].
  - destruct nb as [|c ds]; [discriminate|].
    apply andb_true_iff in H as [Hc H]. apply ascii_eqb_true in Hc. subst c.
    apply all_digits_ok in H as [Hne Hall].
    unfold number_format, alts. rewrite mat_alt, mat_cat. unfold opt.
    rewrite mat_alt. unfold chr. rewrite mat_chr. simpl la. cbn [app].
    rewrite ascii_eqb_refl. cbv beta. unfold digit.
    simpl in HF.
    rewrite (plus_ok (S F) is_digit (la ds) rest cap k r);
      solve [reflexivity | assumption | lia].
  - apply String.eqb_eq in H. subst. simpl. rewrite Hk. reflexivity.
Qed.

Lemma format_layout0 d :
  la (render_format_decl d)
  = la "##FORMAT=<ID=" ++ la (f_id d) ++ la ("," +++ format_after_id d).
Proof.
  unfold render_format_decl, format_after_id. rewrite !list_ascii_of_string_append.
  rewrite <- ?app_assoc. reflexivity.
Qed.

Lemma format_layout1 d :
  la ("," +++ format_after_id d)
  = la ",Number=" ++ la (f_number d) ++ la ",Type=" ++ la (f_type d)
    ++ la ("," +++ format_after_type d).
Proof.
  unfold format_after_id, format_after_type. rewrite !list_ascii_of_string_append.
  rewrite <- ?app_assoc. reflexivity.
Qed.

Lemma format_layout2 d :
  la ("," +++ format_after_type d)
  = la (",Description=" +++ dq) ++ la (f_description d) ++ [ch_dq; ">"%char].
Proof.
  unfold format_after_type. rewrite !list_ascii_of_string_append.
  rewrite <- ?app_assoc. reflexivity.
Qed.

Lemma lit_no_nl_8 : ~ In ch_nl (la ",Number=").
Proof.
  intros Hin. simpl in Hin. repeat destruct Hin as [Hin|Hin]; try discriminate Hin.
  exact Hin.
Qed.

Lemma lit_no_nl_14 : ~ In ch_nl (la (",Description=" +++ dq)).
Proof.
  intros Hin. simpl in Hin. repeat destruct Hin as [Hin|Hin]; try discriminate Hin.
  exact Hin.
Qed.

(** The greedy ID or Type group gives back exactly the text from the comma
    that ends it, when what follows that comma does not contain the literal
    [w] again. *)
Lemma greedy_group_ok F x xs (w after : string) rest cap k r :
  negb (ascii_eqb x ch_nl) = true ->
  Forall (fun c => negb (ascii_eqb c ch_nl) = true) xs ->
  contains_char ch_nl ("," +++ after) = false ->
  ~ In ch_nl (la w) -> la w <> [] -> hd "a"%char (la w) = ","%char ->
  occurs w after = false ->
  (length (xs ++ la ("," +++ after)) < F)%nat ->
  (forall s1 c1, ~ (exists s', s1 = la w ++ s') -> k s1 c1 = None) ->
  k (la ("," +++ after) ++ ch_nl :: rest) cap = Some r ->
  mat F (Cat (Chr (fun c => negb (ascii_eqb c ch_nl))) (Star (Chr (fun c => negb (ascii_eqb c ch_nl)))))
    (x :: xs ++ la ("," +++ after) ++ ch_nl :: rest) cap k = Some r.
Proof.
  intros Hx Hxs Hnl Hw Hwne Hwc Ho HF Hfail Hok.
  rewrite mat_cat, mat_chr, Hx. cbv beta.
  apply star_back_to; [exact Hxs | now apply contains_char_false | reflexivity | | exact HF | exact Hok].
  intros y1 y2 E Hne. apply Hfail.
  apply prefix_fail; [exact Hw | |].
  - intros Hin. apply (in_false _ _ Hnl). rewrite E. apply in_or_app. now right.
  - change (la ("," +++ after)) with (","%char :: la after) in E.
    destruct y1 as [|c y1]; [contradiction|]. injection E as _ E.
    exact (occurs_suffix w after y1 y2 Ho E).
Qed.

(** A well-formed FORMAT declaration followed by a newline is one match of
    the FORMAT pattern, which captures its ID and ends at the newline. *)
Lemma re_format_decl F d rest :
  wf_format d = true -> (length (la (render_format_decl d)) < F)%nat ->
  mat F RE_FORMAT (la (render_format_decl d) ++ ch_nl :: rest) None
    (fun s' c => Some (s', c))
  = Some (ch_nl :: rest, Some (la (f_id d))).
Proof.
  intros Hw HF. unfold wf_format in Hw. rewrite !andb_true_iff in Hw.
  destruct Hw as [[[[[[[Hid Hidnl] Hnum] Hty] Htynl] Hdnl] Ho1] Ho2].
  apply negb_true_iff in Hid, Hidnl, Hty, Htynl, Hdnl, Ho1, Ho2.
  assert (Hn2 : contains_char ch_nl ("," +++ format_after_type d) = false).
  { unfold format_after_type. rewrite !contains_char_app, Hdnl. reflexivity. }
  assert (Hn1 : contains_char ch_nl ("," +++ format_after_id d) = false).
  { unfold format_after_id. rewrite !contains_char_app, Hdnl, Htynl,
      (valid_format_number_nl _ Hnum). reflexivity. }
  pose proof (format_layout0 d) as E0.
  assert (HL := f_equal (@length ascii) E0). rewrite !length_app in HL.
  rewrite HL in HF. clear HL.
  rewrite E0, <- !app_assoc.
  unfold RE_FORMAT. rewrite mat_cat, lit_ok. cbv beta.
  rewrite mat_cat, mat_cap. unfold plus, any_but_nl.
  pose proof (contains_char_false _ _ Hidnl) as Hidf.
  destruct (la (f_id d)) as [|x id'] eqn:Eid.
  { destruct (f_id d); discriminate. }
  inversion Hidf as [|? ? Hx Hid']; subst.
  cbn [app]. apply (greedy_group_ok F x id' ",Number=" (format_after_id d)); try assumption.
  { exact lit_no_nl_8. }
  { discriminate. }
  { reflexivity. }
  { cbn [length] in HF. rewrite length_app. lia. }
  { intros s1 c1 Hn. cbv beta. rewrite mat_cat. now apply lit_fail. }
  cbv beta.
  match goal with |- context [firstn ?n ?l] => replace (firstn n l) with (x :: id') end.
  2:{ change (x :: id' ++ la ("," +++ format_after_id d) ++ ch_nl :: rest)
        with ((x :: id') ++ la ("," +++ format_after_id d) ++ ch_nl :: rest).
      symmetry. apply firstn_prefix. }
  pose proof (format_layout1 d) as E1.
  assert (HL := f_equal (@length ascii) E1). rewrite !length_app in HL.
  rewrite HL in HF. clear HL.
  rewrite E1, <- !app_assoc.
  rewrite mat_cat, lit_ok. cbv beta.
  rewrite mat_cat. apply number_format_ok; [exact Hnum | reflexivity | lia |].
  cbv beta. rewrite mat_cat, lit_ok. cbv beta.
  rewrite mat_cat. unfold plus, any_but_nl.
  pose proof (contains_char_false _ _ Htynl) as Htyf.
  destruct (la (f_type d)) as [|t0 ty'] eqn:Ety.
  { destruct (f_type d); discriminate. }
  inversion Htyf as [|? ? Ht0 Hty']; subst.
  cbn [app].
  apply (greedy_group_ok F t0 ty' (",Description=" +++ dq) (format_after_type d));
    try assumption.
  { exact lit_no_nl_14. }
  { discriminate. }
  { reflexivity. }
  { cbn [length] in HF. rewrite length_app. lia. }
  { intros s1 c1 Hn. cbv beta. rewrite mat_cat. now apply lit_fail. }
  cbv beta.
  pose proof (format_layout2 d) as E2.
  assert (HL := f_equal (@length ascii) E2). rewrite !length_app in HL.
  rewrite HL in HF. clear HL.
  rewrite E2, <- !app_assoc.
  rewrite mat_cat, lit_ok. cbv beta. rewrite mat_cat.
  apply (star_back_to F _ (la (f_description d)) [ch_dq; ">"%char] (ch_nl :: rest)).
  { now apply contains_char_false. }
  { repeat constructor. }
  { reflexivity. }
  { intros y1 y2 E Hne.
    destruct y1 as [|a1 y1]; [contradiction|]. injection E as _ E.
    destruct y1 as [|a2 y1].
    - simpl in E. subst y2. cbv beta. rewrite mat_cat. unfold chr at 1.
      rewrite mat_chr. reflexivity.
    - injection E as _ E. symmetry in E. apply app_eq_nil in E as [_ ->].
      cbv beta. rewrite mat_cat. unfold chr at 1. rewrite mat_chr. reflexivity. }
  { rewrite length_app. cbn [length]. cbn [length] in HF. lia. }
  cbv beta. rewrite mat_cat. unfold chr at 1. rewrite mat_chr. cbn [app].
  rewrite ascii_eqb_refl. cbv beta. rewrite mat_cat.
  apply (star_back_one F _ [] ">"%char (ch_nl :: rest)).
  { constructor. }
  { reflexivity. }
  { reflexivity. }
  { simpl. lia. }
  { cbv beta. unfold chr. rewrite mat_chr. reflexivity. }
  { cbv beta. unfold chr. rewrite mat_chr. reflexivity. }
Qed.

(** The FORMAT pattern does not match at the start of any other line. *)
Lemma re_format_other s rest :
  plain_line "##FORMAT=<ID=" s = true ->
  scan RE_FORMAT (la s ++ ch_nl :: rest) true 0 = scan RE_FORMAT rest true 0.
Proof.
  unfold plain_line. intros H. apply andb_true_iff in H as [H1 H2].
  apply negb_true_iff in H1, H2.
  assert (Hm : match_at RE_FORMAT (la s ++ ch_nl :: rest) = None).
  { unfold match_at, RE_FORMAT. rewrite mat_cat. apply lit_fail.
    apply prefix_fail.
    - intros Hin. simpl in Hin. repeat destruct Hin as [Hin|Hin]; try discriminate Hin.
      exact Hin.
    - now apply in_false.
    - intros [t Et]. apply prefix_app in Et. unfold startswith in H2. congruence. }
  destruct (la s) as [|x xs] eqn:E.
  - cbn [app] in *. rewrite scan_bol, Hm. reflexivity.
  - cbn [app] in *. rewrite scan_bol, Hm.
    apply contains_char_false in H1. rewrite E in H1. inversion H1; subst.
    destruct (ascii_eqb x ch_nl); [discriminate|].
    rewrite scan_no_bol by exact H4. reflexivity.
Qed.

(** ... so the scan reports the ID of a declaration and resumes after it. *)
Lemma re_format_line d rest :
  wf_format d = true ->
  scan RE_FORMAT (la (render_format_decl d) ++ ch_nl :: rest) true 0
  = f_id d :: scan RE_FORMAT rest true 0.
Proof.
  intros Hw.
  set (mid := la "#FORMAT=<ID=" ++ la (f_id d) ++ la ",Number=" ++ la (f_number d)
       ++ la ",Type=" ++ la (f_type d) ++ la (",Description=" +++ dq)
       ++ la (f_description d) ++ [ch_dq]).
  assert (Hl : la (render_format_decl d) = "#"%char :: mid ++ [">"%char]).
  { rewrite format_layout0, format_layout1, format_layout2. unfold mid.
    rewrite <- !app_assoc. reflexivity. }
  assert (Hm : match_at RE_FORMAT (la (render_format_decl d) ++ ch_nl :: rest)
               = Some (ch_nl :: rest, Some (la (f_id d)))).
  { unfold match_at. apply re_format_decl; [exact Hw|].
    rewrite length_app. cbn [length]. lia. }
  rewrite Hl in Hm |- *. cbn [app] in Hm |- *.
  rewrite scan_bol, Hm, string_of_list_ascii_of_string. f_equal.
  replace (length ("#"%char :: (mid ++ [">"%char]) ++ ch_nl :: rest)
           - length (ch_nl :: rest) - 1)%nat
    with (length (mid ++ [">"%char]))
    by (cbn [length]; rewrite !length_app; cbn [length]; lia).
  rewrite scan_skip, bol_after_last. reflexivity.
Qed.

(** [parse_format_fields] on a header of well-formed lines. *)
Lemma parse_format_header hs :
  forallb wf_fline hs = true ->
  scan RE_FORMAT (la (header_text hs)) true 0 = declared_format_ids hs.
Proof.
  induction hs as [|h hs IH]; intros H; [reflexivity|].
  simpl in H. apply andb_true_iff in H as [Hh Ht].
  simpl header_text. rewrite !list_ascii_of_string_append. simpl la.
  cbn [app]. destruct h as [d|d|s0]; simpl render_line.
  - rewrite re_format_other by exact Hh. now apply IH.
  - rewrite re_format_line by exact Hh. simpl. f_equal. now apply IH.
  - rewrite re_format_other by exact Hh. now apply IH.
Qed.

End RegexFormat.

(** X13 *)
(** X13: on a header whose FORMAT lines are all declarations with a
    non-empty newline-free ID and Type, a Number of the pattern, a
    newline-free Description, and no second [,Number=] after the ID nor
    second [,Description=Q] after the Type ([Q] the double quote), and
    whose other lines (INFO declarations included) neither contain a
    newline nor start with [##FORMAT=<ID=], [parse_format_fields] returns
    the declared FORMAT IDs, in header order: the greedy [.+] groups of the
    pattern give back exactly the text after the ID and after the Type. *)
Theorem X13_format_fields_declared (hs : list header_line) :
  forallb wf_fline hs = true ->
  parse_format_fields (header_text hs) = declared_format_ids hs.
Proof. apply RegexFormat.parse_format_header. Qed.

Lemma X13_format_fields_declared_witness :
  forallb wf_fline Inputs.format_decl_header = true /\
  parse_format_fields (header_text Inputs.format_decl_header) = ["GT"; "AD"; "PL"].
Proof.
  split; [vm_compute; reflexivity|].
  apply (X13_format_fields_declared Inputs.format_decl_header). vm_compute. reflexivity.
Defined.

